(** * webgpu-conway: the WebGPU start-up scripts, embedded and verified

    The repository holds two top-level scripts over the browser's WebGPU
    API: [src/main.ts] (clear the canvas and draw one quad) and an earlier
    variant that only clears the canvas.  Both are straight-line programs
    whose only inputs are the answers of the host (the browser): whether
    [navigator.gpu] exists, whether an adapter is found, whether the canvas
    yields a WebGPU context, and which texture format is preferred.

    The embedding is shallow.  A script is a computation in a small monad
    that threads a [World] (the log of GPU calls, the GPU objects created so
    far, the console) and may end early, either by a [throw] statement of
    the script or by an exception of the runtime.  Each host method is one
    monadic operation; the scripts are transcribed statement by statement.
    The two [await]s are sequencing points and nothing more, since nothing
    else runs in between.  Host methods are taken to return normally,
    apart from the three refusals the model writes out: a member access
    through null, a [writeBuffer] that does not fit, and
    [getCurrentTexture] on a context that was never configured. *)

From Stdlib Require Import ZArith QArith String Ascii Bool Lia Sorted.
From stdpp Require Import base list.

Local Open Scope string_scope.
Local Open Scope list_scope.
Local Open Scope Z_scope.

(** ** Handles of host objects *)

Inductive GPUDevice : Type := Device (id : nat).
Inductive GPUCanvasContext : Type := CanvasContext (id : nat).
Inductive GPUBuffer : Type := Buffer (id : nat).
Inductive GPUShaderModule : Type := ShaderModule (id : nat).
Inductive GPURenderPipeline : Type := RenderPipeline (id : nat).
Inductive GPUCommandEncoder : Type := CommandEncoder (id : nat).
Inductive GPURenderPassEncoder : Type := RenderPassEncoder (id : nat).
Inductive GPUCommandBuffer : Type := CommandBuffer (id : nat).
(** [context.getCurrentTexture()] and the default view of a texture. *)
Inductive GPUTexture : Type := CurrentTexture (context : GPUCanvasContext).
Inductive GPUTextureView : Type := DefaultView (texture : GPUTexture).

(** Texture and vertex formats are string literals in the source. *)
Definition GPUTextureFormat : Type := string.
Definition GPUVertexFormat : Type := string.

(** ** The host: everything the script reads from its environment *)

(** A [GPUAdapter] answers [requestDevice()]. *)
Record GPUAdapter : Type := {
  adapter_device : GPUDevice
}.

(** [navigator.gpu]: answers [requestAdapter()] (possibly [null]) and
    [getPreferredCanvasFormat()]. *)
Record GPU : Type := {
  gpu_adapter : option GPUAdapter;
  gpu_preferredCanvasFormat : GPUTextureFormat
}.

(** The canvas element: answers [getContext(contextId)] (possibly [null]). *)
Record HTMLCanvasElement : Type := {
  canvas_context : string -> option GPUCanvasContext
}.

(** The flag constants of the global [GPUBufferUsage]; the source combines
    them with [|], taken as [Z.lor]. *)
Record GPUBufferUsageFlags : Type := {
  VERTEX : Z;
  COPY_DST : Z
}.

(** The globals.  [document.querySelector('canvas')] is cast to
    [HTMLCanvasElement] by the source, so the element is taken to exist;
    [navigator.gpu] is tested by the source, so it may be absent. *)
Record Host : Type := {
  document_canvas : string -> HTMLCanvasElement;
  navigator_gpu : option GPU;
  GPUBufferUsage : GPUBufferUsageFlags
}.

(** ** Typed arrays *)

(** A [Float32Array], by the number literals it was built from. *)
Definition Float32Array : Type := list Q.

Definition BYTES_PER_ELEMENT : Z := 4.

Definition array_length (a : Float32Array) : Z := Z.of_nat (length a).

Definition byteLength (a : Float32Array) : Z := BYTES_PER_ELEMENT * array_length a.

(** One byte of GPU memory: zero (fresh buffers are zero-filled) or byte
    [k] of the 32-bit encoding of the number [x].  The encoding itself is
    left symbolic. *)
Inductive BufferByte : Type :=
| ZeroByte
| F32Byte (x : Q) (k : nat).

Definition f32_bytes (x : Q) : list BufferByte :=
  [F32Byte x 0; F32Byte x 1; F32Byte x 2; F32Byte x 3].

Definition array_bytes (a : Float32Array) : list BufferByte :=
  concat (map f32_bytes a).

(** The JavaScript [/] on numbers, exact on the rationals. *)
Definition js_div (a b : Q) : Q := Qred (a / b).

(** WebIDL conversion of a number to [GPUSize32] ([unsigned long]):
    truncate towards zero, then reduce modulo 2^32. *)
Definition to_GPUSize32 (q : Q) : Z := (Qnum q ÷ Z.pos (Qden q)) mod 2 ^ 32.

(** ** Descriptors (the object literals passed to the API) *)

Module CanvasConfiguration.
Record t : Type := mk { device : GPUDevice; format : GPUTextureFormat }.
End CanvasConfiguration.

Module BufferDescriptor.
Record t : Type := mk { label : string; size : Z; usage : Z }.
End BufferDescriptor.

Module VertexAttribute.
Record t : Type := mk { format : GPUVertexFormat; offset : Z; shaderLocation : Z }.
End VertexAttribute.

Module VertexBufferLayout.
Record t : Type := mk { arrayStride : Z; attributes : list VertexAttribute.t }.
End VertexBufferLayout.

Module ShaderModuleDescriptor.
Record t : Type := mk { label : string; code : string }.
End ShaderModuleDescriptor.

Module VertexState.
Record t : Type := mk {
  module : GPUShaderModule;
  entryPoint : string;
  buffers : list VertexBufferLayout.t
}.
End VertexState.

Module ColorTargetState.
Record t : Type := mk { format : GPUTextureFormat }.
End ColorTargetState.

Module FragmentState.
Record t : Type := mk {
  module : GPUShaderModule;
  entryPoint : string;
  targets : list ColorTargetState.t
}.
End FragmentState.

Module RenderPipelineDescriptor.
Record t : Type := mk {
  label : string;
  layout : string;
  vertex : VertexState.t;
  fragment : FragmentState.t
}.
End RenderPipelineDescriptor.

Module ColorAttachment.
Record t : Type := mk {
  view : GPUTextureView;
  clearValue : list Q;
  loadOp : string;
  storeOp : string
}.
End ColorAttachment.

Module RenderPassDescriptor.
Record t : Type := mk { colorAttachments : list ColorAttachment.t }.
End RenderPassDescriptor.

(** ** The world a script runs in *)

(** What the script did, in program order: every test of a value against
    [null] (the expression tested, as the source writes it, and whether it
    was null), and every call of a host method with its arguments and, where
    the script uses it, its result. *)
Inductive Event : Type :=
| Test (expr : string) (is_null : bool)
| E_requestAdapter (gpu : GPU) (result : option GPUAdapter)
| E_requestDevice (adapter : GPUAdapter) (result : GPUDevice)
| E_getContext (canvas : HTMLCanvasElement) (contextId : string)
    (result : option GPUCanvasContext)
| E_getPreferredCanvasFormat (gpu : GPU) (result : GPUTextureFormat)
| E_configure (context : GPUCanvasContext) (configuration : CanvasConfiguration.t)
| E_createBuffer (device : GPUDevice) (descriptor : BufferDescriptor.t)
    (result : GPUBuffer)
| E_writeBuffer (device : GPUDevice) (buffer : GPUBuffer) (bufferOffset : Z)
    (data : Float32Array)
| E_createShaderModule (device : GPUDevice) (descriptor : ShaderModuleDescriptor.t)
    (result : GPUShaderModule)
| E_createRenderPipeline (device : GPUDevice)
    (descriptor : RenderPipelineDescriptor.t) (result : GPURenderPipeline)
| E_createCommandEncoder (device : GPUDevice) (result : GPUCommandEncoder)
| E_getCurrentTexture (context : GPUCanvasContext) (result : GPUTexture)
| E_createView (texture : GPUTexture) (result : GPUTextureView)
| E_beginRenderPass (encoder : GPUCommandEncoder)
    (descriptor : RenderPassDescriptor.t) (result : GPURenderPassEncoder)
| E_setPipeline (pass : GPURenderPassEncoder) (pipeline : GPURenderPipeline)
| E_setVertexBuffer (pass : GPURenderPassEncoder) (slot : Z) (buffer : GPUBuffer)
| E_draw (pass : GPURenderPassEncoder) (vertexCount : Z)
| E_end (pass : GPURenderPassEncoder)
| E_finish (encoder : GPUCommandEncoder) (result : GPUCommandBuffer)
| E_submit (device : GPUDevice) (commandBuffers : list GPUCommandBuffer).

(** A buffer of the device: its descriptor and its bytes. *)
Record BufferState : Type := {
  buffer_descriptor : BufferDescriptor.t;
  buffer_content : list BufferByte
}.

(** A command recorded inside a render pass. *)
Inductive PassCommand : Type :=
| SetPipeline (pipeline : GPURenderPipeline)
| SetVertexBuffer (slot : Z) (buffer : GPUBuffer)
| Draw (vertexCount : Z).

(** A render pass encoder: the command encoder it belongs to, the
    descriptor it was begun with, the commands recorded so far. *)
Record PassState : Type := {
  pass_encoder : GPUCommandEncoder;
  pass_descriptor : RenderPassDescriptor.t;
  pass_commands : list PassCommand
}.

(** A render pass as it sits in a command encoder or a command buffer. *)
Record RecordedPass : Type := {
  rp_descriptor : RenderPassDescriptor.t;
  rp_commands : list PassCommand
}.

(** Objects are stored per kind, in creation order; the handle [K n] names
    entry [n] of the store of kind [K]. *)
Record World : Type := {
  trace : list Event;
  console : list Z;
  configured : list (GPUCanvasContext * CanvasConfiguration.t);
  buffers : list BufferState;
  shaderModules : list ShaderModuleDescriptor.t;
  pipelines : list RenderPipelineDescriptor.t;
  encoders : list (list RecordedPass);
  passes : list PassState;
  commandBuffers : list (list RecordedPass);
  queue : list (list GPUCommandBuffer)
}.

Definition initial_world : World :=
  {| trace := []; console := []; configured := []; buffers := [];
     shaderModules := []; pipelines := []; encoders := []; passes := [];
     commandBuffers := []; queue := [] |}.

Definition set_trace (x : list Event) (w : World) : World :=
  {| trace := x; console := console w; configured := configured w;
     buffers := buffers w; shaderModules := shaderModules w;
     pipelines := pipelines w; encoders := encoders w; passes := passes w;
     commandBuffers := commandBuffers w; queue := queue w |}.

Definition set_console (x : list Z) (w : World) : World :=
  {| trace := trace w; console := x; configured := configured w;
     buffers := buffers w; shaderModules := shaderModules w;
     pipelines := pipelines w; encoders := encoders w; passes := passes w;
     commandBuffers := commandBuffers w; queue := queue w |}.

Definition set_configured (x : list (GPUCanvasContext * CanvasConfiguration.t))
  (w : World) : World :=
  {| trace := trace w; console := console w; configured := x;
     buffers := buffers w; shaderModules := shaderModules w;
     pipelines := pipelines w; encoders := encoders w; passes := passes w;
     commandBuffers := commandBuffers w; queue := queue w |}.

Definition set_buffers (x : list BufferState) (w : World) : World :=
  {| trace := trace w; console := console w; configured := configured w;
     buffers := x; shaderModules := shaderModules w;
     pipelines := pipelines w; encoders := encoders w; passes := passes w;
     commandBuffers := commandBuffers w; queue := queue w |}.

Definition set_shaderModules (x : list ShaderModuleDescriptor.t) (w : World) : World :=
  {| trace := trace w; console := console w; configured := configured w;
     buffers := buffers w; shaderModules := x;
     pipelines := pipelines w; encoders := encoders w; passes := passes w;
     commandBuffers := commandBuffers w; queue := queue w |}.

Definition set_pipelines (x : list RenderPipelineDescriptor.t) (w : World) : World :=
  {| trace := trace w; console := console w; configured := configured w;
     buffers := buffers w; shaderModules := shaderModules w;
     pipelines := x; encoders := encoders w; passes := passes w;
     commandBuffers := commandBuffers w; queue := queue w |}.

Definition set_encoders (x : list (list RecordedPass)) (w : World) : World :=
  {| trace := trace w; console := console w; configured := configured w;
     buffers := buffers w; shaderModules := shaderModules w;
     pipelines := pipelines w; encoders := x; passes := passes w;
     commandBuffers := commandBuffers w; queue := queue w |}.

Definition set_passes (x : list PassState) (w : World) : World :=
  {| trace := trace w; console := console w; configured := configured w;
     buffers := buffers w; shaderModules := shaderModules w;
     pipelines := pipelines w; encoders := encoders w; passes := x;
     commandBuffers := commandBuffers w; queue := queue w |}.

Definition set_commandBuffers (x : list (list RecordedPass)) (w : World) : World :=
  {| trace := trace w; console := console w; configured := configured w;
     buffers := buffers w; shaderModules := shaderModules w;
     pipelines := pipelines w; encoders := encoders w; passes := passes w;
     commandBuffers := x; queue := queue w |}.

Definition set_queue (x : list (list GPUCommandBuffer)) (w : World) : World :=
  {| trace := trace w; console := console w; configured := configured w;
     buffers := buffers w; shaderModules := shaderModules w;
     pipelines := pipelines w; encoders := encoders w; passes := passes w;
     commandBuffers := commandBuffers w; queue := x |}.

(** ** The script monad *)

(** Exceptions raised by the runtime or the host rather than by a [throw]
    statement of the script. *)
Inductive HostException : Type :=
| TypeError (expr : string)   (* member access through [expr], which is null *)
| OperationError              (* a host method rejected its arguments *)
| InvalidStateError.          (* a host object was not ready for the call *)

(** How a script ends. *)
Inductive Outcome (A : Type) : Type :=
| Returned (a : A)
| Threw (message : string)    (* [throw new Error(message)] in the script *)
| Raised (e : HostException).

Arguments Returned {A} a.
Arguments Threw {A} message.
Arguments Raised {A} e.

Definition M (A : Type) : Type := World -> Outcome A * World.

Definition ret {A : Type} (a : A) : M A := fun w => (Returned a, w).

Definition bind {A B : Type} (m : M A) (k : A -> M B) : M B :=
  fun w =>
    match m w with
    | (Returned a, w') => k a w'
    | (Threw message, w') => (Threw message, w')
    | (Raised e, w') => (Raised e, w')
    end.

Notation "x <- m ;; k" := (bind m (fun x => k))
  (at level 100, m at next level, right associativity).
Notation "m ;; k" := (bind m (fun _ => k))
  (at level 100, right associativity).

Definition throw {A : Type} (message : string) : M A :=
  fun w => (Threw message, w).

Definition raise {A : Type} (e : HostException) : M A :=
  fun w => (Raised e, w).

Definition modify (f : World -> World) : M unit :=
  fun w => (Returned tt, f w).

Definition get {A : Type} (f : World -> A) : M A :=
  fun w => (Returned (f w), w).

Definition event (e : Event) : M unit :=
  modify (fun w => set_trace (trace w ++ [e]) w).

(** [if (!v) on_null] and [v ? otherwise : on_null]: the test is logged,
    then one branch runs. *)
Definition if_null {A B : Type} (expr : string) (v : option A)
  (on_null : M B) (otherwise : A -> M B) : M B :=
  match v with
  | None => event (Test expr true) ;; on_null
  | Some a => event (Test expr false) ;; otherwise a
  end.

(** Member access through a nullable value ([v!.m(...)]; the [!] is erased
    by the compiler): a [TypeError] when the value is null. *)
Definition deref {A : Type} (expr : string) (v : option A) : M A :=
  match v with
  | None => raise (TypeError expr)
  | Some a => ret a
  end.

(** ** The host methods the scripts call *)

(** [navigator.gpu.requestAdapter()] *)
Definition requestAdapter (gpu : GPU) : M (option GPUAdapter) :=
  let result := gpu_adapter gpu in
  event (E_requestAdapter gpu result) ;;
  ret result.

(** [adapter.requestDevice()] *)
Definition requestDevice (adapter : GPUAdapter) : M GPUDevice :=
  let result := adapter_device adapter in
  event (E_requestDevice adapter result) ;;
  ret result.

(** [canvas.getContext(contextId)] *)
Definition getContext (canvas : HTMLCanvasElement) (contextId : string)
  : M (option GPUCanvasContext) :=
  let result := canvas_context canvas contextId in
  event (E_getContext canvas contextId result) ;;
  ret result.

(** [navigator.gpu.getPreferredCanvasFormat()] *)
Definition getPreferredCanvasFormat (gpu : GPU) : M GPUTextureFormat :=
  let result := gpu_preferredCanvasFormat gpu in
  event (E_getPreferredCanvasFormat gpu result) ;;
  ret result.

(** [context.configure(configuration)] *)
Definition configure (context : GPUCanvasContext)
  (configuration : CanvasConfiguration.t) : M unit :=
  event (E_configure context configuration) ;;
  modify (fun w => set_configured (configured w ++ [(context, configuration)]) w).

(** [device.createBuffer(descriptor)]: a fresh zero-filled buffer. *)
Definition createBuffer (device : GPUDevice) (descriptor : BufferDescriptor.t)
  : M GPUBuffer :=
  n <- get (fun w => length (buffers w)) ;;
  event (E_createBuffer device descriptor (Buffer n)) ;;
  modify (fun w => set_buffers
    (buffers w ++
     [{| buffer_descriptor := descriptor;
         buffer_content :=
           replicate (Z.to_nat (BufferDescriptor.size descriptor)) ZeroByte |}]) w) ;;
  ret (Buffer n).

(** [data] laid over [l] from position [offset] on. *)
Definition overwrite {A : Type} (offset : nat) (data l : list A) : list A :=
  take offset l ++ data ++ drop (offset + length data) l.

(** [device.queue.writeBuffer(buffer, bufferOffset, data)]: the whole of
    [data] is copied into the buffer from [bufferOffset] on; the host
    rejects a write that does not fit.  An unknown handle is left alone. *)
Definition writeBuffer (device : GPUDevice) (buffer : GPUBuffer)
  (bufferOffset : Z) (data : Float32Array) : M unit :=
  event (E_writeBuffer device buffer bufferOffset data) ;;
  let 'Buffer n := buffer in
  state <- get (fun w => buffers w !! n) ;;
  match state with
  | None => ret tt
  | Some b =>
      if (0 <=? bufferOffset) &&
         (bufferOffset + byteLength data <=? BufferDescriptor.size (buffer_descriptor b))
      then
        modify (fun w => set_buffers
          (<[n := {| buffer_descriptor := buffer_descriptor b;
                     buffer_content :=
                       overwrite (Z.to_nat bufferOffset) (array_bytes data)
                         (buffer_content b) |}]> (buffers w)) w)
      else raise OperationError
  end.

(** [device.createShaderModule(descriptor)] *)
Definition createShaderModule (device : GPUDevice)
  (descriptor : ShaderModuleDescriptor.t) : M GPUShaderModule :=
  n <- get (fun w => length (shaderModules w)) ;;
  event (E_createShaderModule device descriptor (ShaderModule n)) ;;
  modify (fun w => set_shaderModules (shaderModules w ++ [descriptor]) w) ;;
  ret (ShaderModule n).

(** [device.createRenderPipeline(descriptor)] *)
Definition createRenderPipeline (device : GPUDevice)
  (descriptor : RenderPipelineDescriptor.t) : M GPURenderPipeline :=
  n <- get (fun w => length (pipelines w)) ;;
  event (E_createRenderPipeline device descriptor (RenderPipeline n)) ;;
  modify (fun w => set_pipelines (pipelines w ++ [descriptor]) w) ;;
  ret (RenderPipeline n).

(** [device.createCommandEncoder()]: a fresh encoder with nothing recorded. *)
Definition createCommandEncoder (device : GPUDevice) : M GPUCommandEncoder :=
  n <- get (fun w => length (encoders w)) ;;
  event (E_createCommandEncoder device (CommandEncoder n)) ;;
  modify (fun w => set_encoders (encoders w ++ [[]]) w) ;;
  ret (CommandEncoder n).

Definition context_eqb (a b : GPUCanvasContext) : bool :=
  match a, b with CanvasContext i, CanvasContext j => Nat.eqb i j end.

(** [context.getCurrentTexture()]: the host raises [InvalidStateError] on a
    context that was never configured. *)
Definition getCurrentTexture (context : GPUCanvasContext) : M GPUTexture :=
  event (E_getCurrentTexture context (CurrentTexture context)) ;;
  is_configured <- get (fun w => existsb (fun c => context_eqb (fst c) context) (configured w)) ;;
  if is_configured : bool then ret (CurrentTexture context)
  else raise InvalidStateError.

(** [texture.createView()] *)
Definition createView (texture : GPUTexture) : M GPUTextureView :=
  event (E_createView texture (DefaultView texture)) ;;
  ret (DefaultView texture).

(** [encoder.beginRenderPass(descriptor)]: a fresh pass encoder. *)
Definition beginRenderPass (encoder : GPUCommandEncoder)
  (descriptor : RenderPassDescriptor.t) : M GPURenderPassEncoder :=
  n <- get (fun w => length (passes w)) ;;
  event (E_beginRenderPass encoder descriptor (RenderPassEncoder n)) ;;
  modify (fun w => set_passes
    (passes w ++
     [{| pass_encoder := encoder; pass_descriptor := descriptor;
         pass_commands := [] |}]) w) ;;
  ret (RenderPassEncoder n).

(** A pass command is appended to the commands of its pass encoder. *)
Definition record (pass : GPURenderPassEncoder) (c : PassCommand) : M unit :=
  let 'RenderPassEncoder n := pass in
  modify (fun w => set_passes
    (alter (fun p => {| pass_encoder := pass_encoder p;
                        pass_descriptor := pass_descriptor p;
                        pass_commands := pass_commands p ++ [c] |}) n (passes w)) w).

(** [pass.setPipeline(pipeline)] *)
Definition setPipeline (pass : GPURenderPassEncoder) (pipeline : GPURenderPipeline)
  : M unit :=
  event (E_setPipeline pass pipeline) ;;
  record pass (SetPipeline pipeline).

(** [pass.setVertexBuffer(slot, buffer)] *)
Definition setVertexBuffer (pass : GPURenderPassEncoder) (slot : Z)
  (buffer : GPUBuffer) : M unit :=
  event (E_setVertexBuffer pass slot buffer) ;;
  record pass (SetVertexBuffer slot buffer).

(** [pass.draw(vertexCount)]: the number is converted to [GPUSize32]. *)
Definition draw (pass : GPURenderPassEncoder) (vertexCount : Q) : M unit :=
  event (E_draw pass (to_GPUSize32 vertexCount)) ;;
  record pass (Draw (to_GPUSize32 vertexCount)).

(** [pass.end()]: the pass, with its commands, goes into its encoder. *)
Definition pass_end (pass : GPURenderPassEncoder) : M unit :=
  event (E_end pass) ;;
  let 'RenderPassEncoder n := pass in
  state <- get (fun w => passes w !! n) ;;
  match state with
  | None => ret tt
  | Some p =>
      let 'CommandEncoder e := pass_encoder p in
      modify (fun w => set_encoders
        (alter (fun recorded =>
                  recorded ++ [{| rp_descriptor := pass_descriptor p;
                                  rp_commands := pass_commands p |}])
               e (encoders w)) w)
  end.

(** [encoder.finish()]: a fresh command buffer holding what the encoder
    recorded. *)
Definition finish (encoder : GPUCommandEncoder) : M GPUCommandBuffer :=
  let 'CommandEncoder e := encoder in
  n <- get (fun w => length (commandBuffers w)) ;;
  event (E_finish encoder (CommandBuffer n)) ;;
  modify (fun w => set_commandBuffers
    (commandBuffers w ++ [default [] (encoders w !! e)]) w) ;;
  ret (CommandBuffer n).

(** [device.queue.submit(commandBuffers)] *)
Definition submit (device : GPUDevice) (cbs : list GPUCommandBuffer) : M unit :=
  event (E_submit device cbs) ;;
  modify (fun w => set_queue (queue w ++ [cbs]) w).

(** [console.log(x)] *)
Definition console_log (x : Z) : M unit :=
  modify (fun w => set_console (console w ++ [x]) w).

(** ** The scripts *)

Definition LF : string := String (ascii_of_nat 10) EmptyString.
Definition TAB : string := String (ascii_of_nat 9) EmptyString.

(** [verticies] of [main.ts]: two triangles, six corners of two numbers. *)
Definition verticies : Float32Array :=
  [ -0.8; -0.8;
    0.8; -0.8;
    0.8; 0.8;

    -0.8; -0.8;
    0.8; 0.8;
    -0.8; 0.8 ]%Q.

Definition vertexBufferLayout : VertexBufferLayout.t :=
  {| VertexBufferLayout.arrayStride := 8;
     VertexBufferLayout.attributes :=
       [ {| VertexAttribute.format := "float32x2";
            VertexAttribute.offset := 0;
            VertexAttribute.shaderLocation := 0 |} ] |}.

(** The template literal given as [code]; the backslash that ends the line
    of [fragmentMain] continues the line, so no line feed follows the
    brace. *)
Definition cellShaderCode : string :=
  (LF ++
   TAB ++ "@vertex" ++ LF ++
   TAB ++ "fn vertexMain(@location(0) pos: vec2f) -> @builtin(position) vec4f {" ++ LF ++
   TAB ++ TAB ++ "return vec4f(pos, 0 , 1);" ++ LF ++
   TAB ++ "}" ++ LF ++
   LF ++
   TAB ++ "@fragment" ++ LF ++
   TAB ++ "fn fragmentMain() -> @location(0) vec4f{" ++
   TAB ++ TAB ++ "return vec4f(0.1, 0.1, 0.1, 1);" ++ LF ++
   LF ++
   LF ++
   TAB ++ "}" ++ LF ++
   LF ++
   LF ++
   TAB)%string.

(** The colour attachment both scripts begin their pass with. *)
Definition clearAttachment (view : GPUTextureView) : ColorAttachment.t :=
  {| ColorAttachment.view := view;
     ColorAttachment.clearValue := [0.8; 0.9; 0.9; 1]%Q;
     ColorAttachment.loadOp := "clear";
     ColorAttachment.storeOp := "store" |}.

(** [src/main.ts], statement by statement.  [navigator.gpu] is read once
    and the value reused where the source reads it again. *)
Definition main (h : Host) : M unit :=
  let canvas := document_canvas h "canvas" in
  if_null "navigator.gpu" (navigator_gpu h)
    (throw "WebGPU is not supported!") (fun gpu =>
  adapter <- requestAdapter gpu ;;
  if_null "adapter" adapter
    (throw "Failed to get adapter!") (fun adapter =>
  device <- requestDevice adapter ;;
  context <- getContext canvas "webgpu" ;;
  canvasFormat <- getPreferredCanvasFormat gpu ;;
  if_null "context" context (ret tt) (fun context =>
    configure context
      {| CanvasConfiguration.device := device;
         CanvasConfiguration.format := canvasFormat |}) ;;
  vertexBuffer <- createBuffer device
    {| BufferDescriptor.label := "Cell Verticies";
       BufferDescriptor.size := byteLength verticies;
       BufferDescriptor.usage :=
         Z.lor (VERTEX (GPUBufferUsage h)) (COPY_DST (GPUBufferUsage h)) |} ;;
  writeBuffer device vertexBuffer 0 verticies ;;
  cellShaderModule <- createShaderModule device
    {| ShaderModuleDescriptor.label := "Cell shader";
       ShaderModuleDescriptor.code := cellShaderCode |} ;;
  cellPipeline <- createRenderPipeline device
    {| RenderPipelineDescriptor.label := "Cell pipeline";
       RenderPipelineDescriptor.layout := "auto";
       RenderPipelineDescriptor.vertex :=
         {| VertexState.module := cellShaderModule;
            VertexState.entryPoint := "vertexMain";
            VertexState.buffers := [vertexBufferLayout] |};
       RenderPipelineDescriptor.fragment :=
         {| FragmentState.module := cellShaderModule;
            FragmentState.entryPoint := "fragmentMain";
            FragmentState.targets :=
              [ {| ColorTargetState.format := canvasFormat |} ] |} |} ;;
  encoder <- createCommandEncoder device ;;
  context' <- deref "context" context ;;
  texture <- getCurrentTexture context' ;;
  view <- createView texture ;;
  pass1 <- beginRenderPass encoder
    {| RenderPassDescriptor.colorAttachments := [clearAttachment view] |} ;;
  setPipeline pass1 cellPipeline ;;
  setVertexBuffer pass1 0 vertexBuffer ;;
  draw pass1 (js_div (inject_Z (array_length verticies)) 2) ;;
  console_log (array_length verticies) ;;
  pass_end pass1 ;;
  commandBuffer <- finish encoder ;;
  submit device [commandBuffer])).

(** The second source file (its name is not recorded): the variant that
    only clears the canvas. *)
Definition part_000 (h : Host) : M unit :=
  let canvas := document_canvas h "canvas" in
  if_null "navigator.gpu" (navigator_gpu h)
    (throw "WebGPU is not supported!") (fun gpu =>
  adapter <- requestAdapter gpu ;;
  if_null "adapter" adapter
    (throw "Failed to get adapter!") (fun adapter =>
  device <- requestDevice adapter ;;
  context <- getContext canvas "webgpu" ;;
  canvasFormat <- getPreferredCanvasFormat gpu ;;
  if_null "context" context (ret tt) (fun context =>
    configure context
      {| CanvasConfiguration.device := device;
         CanvasConfiguration.format := canvasFormat |}) ;;
  encoder <- createCommandEncoder device ;;
  context' <- deref "context" context ;;
  texture <- getCurrentTexture context' ;;
  view <- createView texture ;;
  pass1 <- beginRenderPass encoder
    {| RenderPassDescriptor.colorAttachments := [clearAttachment view] |} ;;
  pass_end pass1 ;;
  commandBuffer <- finish encoder ;;
  submit device [commandBuffer])).

(** A script run from the initial world. *)
Definition run (script : Host -> M unit) (h : Host) : Outcome unit * World :=
  script h initial_world.

Definition outcome (script : Host -> M unit) (h : Host) : Outcome unit :=
  fst (run script h).

Definition final (script : Host -> M unit) (h : Host) : World :=
  snd (run script h).

(** ** Sample hosts *)

(** A host on which everything is available. *)
Definition full_gpu : GPU :=
  {| gpu_adapter := Some {| adapter_device := Device 0 |};
     gpu_preferredCanvasFormat := "bgra8unorm" |}.

Definition full_host : Host :=
  {| document_canvas := fun _ =>
       {| canvas_context := fun contextId =>
            if String.eqb contextId "webgpu" then Some (CanvasContext 0) else None |};
     navigator_gpu := Some full_gpu;
     GPUBufferUsage := {| VERTEX := 32; COPY_DST := 8 |} |}.

(** The canvas yields no WebGPU context. *)
Definition null_context_host : Host :=
  {| document_canvas := fun _ => {| canvas_context := fun _ => None |};
     navigator_gpu := Some full_gpu;
     GPUBufferUsage := {| VERTEX := 32; COPY_DST := 8 |} |}.

(** No adapter is found. *)
Definition no_adapter_host : Host :=
  {| document_canvas := document_canvas full_host;
     navigator_gpu :=
       Some {| gpu_adapter := None; gpu_preferredCanvasFormat := "bgra8unorm" |};
     GPUBufferUsage := GPUBufferUsage full_host |}.

(** The browser has no WebGPU. *)
Definition no_gpu_host : Host :=
  {| document_canvas := document_canvas full_host;
     navigator_gpu := None;
     GPUBufferUsage := GPUBufferUsage full_host |}.

(** ** Reading the log *)

Definition is_requestDevice (e : Event) : bool :=
  match e with E_requestDevice _ _ => true | _ => false end.

Definition is_configure (e : Event) : bool :=
  match e with E_configure _ _ => true | _ => false end.

Definition is_createBuffer (e : Event) : bool :=
  match e with E_createBuffer _ _ _ => true | _ => false end.

Definition is_writeBuffer (e : Event) : bool :=
  match e with E_writeBuffer _ _ _ _ => true | _ => false end.

Definition is_createShaderModule (e : Event) : bool :=
  match e with E_createShaderModule _ _ _ => true | _ => false end.

Definition is_createRenderPipeline (e : Event) : bool :=
  match e with E_createRenderPipeline _ _ _ => true | _ => false end.

Definition is_beginRenderPass (e : Event) : bool :=
  match e with E_beginRenderPass _ _ _ => true | _ => false end.

Definition is_draw (e : Event) : bool :=
  match e with E_draw _ _ => true | _ => false end.

(** The commands recorded inside a pass. *)
Definition is_pass_command (e : Event) : bool :=
  match e with
  | E_setPipeline _ _ | E_setVertexBuffer _ _ _ | E_draw _ _ => true
  | _ => false
  end.

Definition is_finish (e : Event) : bool :=
  match e with E_finish _ _ => true | _ => false end.

Definition is_submit (e : Event) : bool :=
  match e with E_submit _ _ => true | _ => false end.

Definition count (P : Event -> bool) (tr : list Event) : nat :=
  length (List.filter P tr).

Definition reaches_submission (w : World) : bool := existsb is_submit (trace w).

(** The expressions tested against null, in order. *)
Definition tested (tr : list Event) : list string :=
  omap (fun e => match e with Test expr _ => Some expr | _ => None end) tr.

(** The step of the start-up sequence an event belongs to: 1 the query for
    GPU capability (the test of [navigator.gpu]), 2 the adapter request,
    3 the device request, 4 the configuration of the canvas, 5 the vertex
    buffer, 6 the shader module, 7 the render pipeline, 8 the recording of
    the command buffer, 9 its submission.  The two other tests are
    decisions of the script, not calls. *)
Definition step (e : Event) : option nat :=
  match e with
  | Test expr _ => if String.eqb expr "navigator.gpu" then Some 1%nat else None
  | E_requestAdapter _ _ => Some 2%nat
  | E_requestDevice _ _ => Some 3%nat
  | E_getContext _ _ _ | E_getPreferredCanvasFormat _ _ | E_configure _ _ => Some 4%nat
  | E_createBuffer _ _ _ | E_writeBuffer _ _ _ _ => Some 5%nat
  | E_createShaderModule _ _ _ => Some 6%nat
  | E_createRenderPipeline _ _ _ => Some 7%nat
  | E_createCommandEncoder _ _ | E_getCurrentTexture _ _ | E_createView _ _
  | E_beginRenderPass _ _ _ | E_setPipeline _ _ | E_setVertexBuffer _ _ _
  | E_draw _ _ | E_end _ | E_finish _ _ => Some 8%nat
  | E_submit _ _ => Some 9%nat
  end.

(** Every event of kind [Q] comes after some event of kind [P]. *)
Definition precedes (P Q : Event -> bool) (tr : list Event) : Prop :=
  forall i q, tr !! i = Some q -> Q q = true ->
    exists j p, (j < i)%nat /\ tr !! j = Some p /\ P p = true.

Fixpoint precedesb (P Q : Event -> bool) (seen : bool) (tr : list Event) : bool :=
  match tr with
  | [] => true
  | e :: tr' => (negb (Q e) || seen) && precedesb P Q (seen || P e) tr'
  end.

(** The events of a run of [main.ts] that meets no null. *)
Definition main_events (h : Host) (gpu : GPU) (adapter : GPUAdapter)
  (context : GPUCanvasContext) : list Event :=
  let canvas := document_canvas h "canvas" in
  let device := adapter_device adapter in
  let canvasFormat := gpu_preferredCanvasFormat gpu in
  let view := DefaultView (CurrentTexture context) in
  [ Test "navigator.gpu" false;
    E_requestAdapter gpu (Some adapter);
    Test "adapter" false;
    E_requestDevice adapter device;
    E_getContext canvas "webgpu" (Some context);
    E_getPreferredCanvasFormat gpu canvasFormat;
    Test "context" false;
    E_configure context
      {| CanvasConfiguration.device := device;
         CanvasConfiguration.format := canvasFormat |};
    E_createBuffer device
      {| BufferDescriptor.label := "Cell Verticies";
         BufferDescriptor.size := 48;
         BufferDescriptor.usage :=
           Z.lor (VERTEX (GPUBufferUsage h)) (COPY_DST (GPUBufferUsage h)) |}
      (Buffer 0);
    E_writeBuffer device (Buffer 0) 0 verticies;
    E_createShaderModule device
      {| ShaderModuleDescriptor.label := "Cell shader";
         ShaderModuleDescriptor.code := cellShaderCode |}
      (ShaderModule 0);
    E_createRenderPipeline device
      {| RenderPipelineDescriptor.label := "Cell pipeline";
         RenderPipelineDescriptor.layout := "auto";
         RenderPipelineDescriptor.vertex :=
           {| VertexState.module := ShaderModule 0;
              VertexState.entryPoint := "vertexMain";
              VertexState.buffers := [vertexBufferLayout] |};
         RenderPipelineDescriptor.fragment :=
           {| FragmentState.module := ShaderModule 0;
              FragmentState.entryPoint := "fragmentMain";
              FragmentState.targets :=
                [ {| ColorTargetState.format := canvasFormat |} ] |} |}
      (RenderPipeline 0);
    E_createCommandEncoder device (CommandEncoder 0);
    E_getCurrentTexture context (CurrentTexture context);
    E_createView (CurrentTexture context) view;
    E_beginRenderPass (CommandEncoder 0)
      {| RenderPassDescriptor.colorAttachments := [clearAttachment view] |}
      (RenderPassEncoder 0);
    E_setPipeline (RenderPassEncoder 0) (RenderPipeline 0);
    E_setVertexBuffer (RenderPassEncoder 0) 0 (Buffer 0);
    E_draw (RenderPassEncoder 0) 6;
    E_end (RenderPassEncoder 0);
    E_finish (CommandEncoder 0) (CommandBuffer 0);
    E_submit device [CommandBuffer 0] ].

Definition is_draw_command (c : PassCommand) : bool :=
  match c with Draw _ => true | _ => false end.

(** The wording "exactly two null checks, and no other result is tested":
    every expression the run tests is [navigator.gpu] or [adapter]. *)
Definition only_two_null_checks (tr : list Event) : Prop :=
  forall expr, In expr (tested tr) -> expr = "navigator.gpu" \/ expr = "adapter".

(** The vertex buffer of [main.ts] once it is written. *)
Definition vertexBufferState (h : Host) : BufferState :=
  {| buffer_descriptor :=
       {| BufferDescriptor.label := "Cell Verticies";
          BufferDescriptor.size := 48;
          BufferDescriptor.usage :=
            Z.lor (VERTEX (GPUBufferUsage h)) (COPY_DST (GPUBufferUsage h)) |};
     buffer_content := array_bytes verticies |}.

(** Bytes taken by one attribute of a vertex format; "float32x2" is two
    32-bit floats. *)
Definition vertex_format_size (format : GPUVertexFormat) : option Z :=
  if String.eqb format "float32x2" then Some (2 * BYTES_PER_ELEMENT) else None.

(** The bytes [first, first + size) of the vertex buffer that vertex [v]
    reads for attribute [a] under [layout]. *)
Definition attribute_first (layout : VertexBufferLayout.t) (v : Z)
  (a : VertexAttribute.t) : Z :=
  v * VertexBufferLayout.arrayStride layout + VertexAttribute.offset a.

(** ** Comparing the two scripts *)

(** What [main.ts] does and the clear-only variant does not: the vertex
    buffer, the shader module, the pipeline, the commands of the pass. *)
Definition is_extra (e : Event) : bool :=
  is_createBuffer e || is_writeBuffer e || is_createShaderModule e ||
  is_createRenderPipeline e || is_pass_command e.

Definition without_commands (p : RecordedPass) : RecordedPass :=
  {| rp_descriptor := rp_descriptor p; rp_commands := [] |}.

(** A world with those extras taken out. *)
Definition without_extras (w : World) : World :=
  {| trace := List.filter (fun e => negb (is_extra e)) (trace w);
     console := console w;
     configured := configured w;
     buffers := [];
     shaderModules := [];
     pipelines := [];
     encoders := map (map without_commands) (encoders w);
     passes :=
       map (fun p => {| pass_encoder := pass_encoder p;
                        pass_descriptor := pass_descriptor p;
                        pass_commands := [] |}) (passes w);
     commandBuffers := map (map without_commands) (commandBuffers w);
     queue := queue w |}.

(** "[main.ts] differs only by" the extras: taking them out of a run of
    [main.ts] leaves the run of the clear-only variant. *)
Definition differs_only_by_extras (h : Host) : Prop :=
  run part_000 h = (outcome main h, without_extras (final main h)).

(** The events up to and including the configuration of the canvas. *)
Definition is_initialization (e : Event) : bool :=
  match e with
  | Test _ _ | E_requestAdapter _ _ | E_requestDevice _ _ | E_getContext _ _ _
  | E_getPreferredCanvasFormat _ _ | E_configure _ _ => true
  | _ => false
  end.

(** ** Both scripts at once *)

Definition scripts : list (Host -> M unit) := [main; part_000].

(** The events of a run of the clear-only variant that meets no null. *)
Definition variant_events (h : Host) (gpu : GPU) (adapter : GPUAdapter)
  (context : GPUCanvasContext) : list Event :=
  let canvas := document_canvas h "canvas" in
  let device := adapter_device adapter in
  let canvasFormat := gpu_preferredCanvasFormat gpu in
  let view := DefaultView (CurrentTexture context) in
  [ Test "navigator.gpu" false;
    E_requestAdapter gpu (Some adapter);
    Test "adapter" false;
    E_requestDevice adapter device;
    E_getContext canvas "webgpu" (Some context);
    E_getPreferredCanvasFormat gpu canvasFormat;
    Test "context" false;
    E_configure context
      {| CanvasConfiguration.device := device;
         CanvasConfiguration.format := canvasFormat |};
    E_createCommandEncoder device (CommandEncoder 0);
    E_getCurrentTexture context (CurrentTexture context);
    E_createView (CurrentTexture context) view;
    E_beginRenderPass (CommandEncoder 0)
      {| RenderPassDescriptor.colorAttachments := [clearAttachment view] |}
      (RenderPassEncoder 0);
    E_end (RenderPassEncoder 0);
    E_finish (CommandEncoder 0) (CommandBuffer 0);
    E_submit device [CommandBuffer 0] ].

Definition is_createCommandEncoder (e : Event) : bool :=
  match e with E_createCommandEncoder _ _ => true | _ => false end.

Definition is_getCurrentTexture (e : Event) : bool :=
  match e with E_getCurrentTexture _ _ => true | _ => false end.

Definition is_end (e : Event) : bool :=
  match e with E_end _ => true | _ => false end.

(** Every event of kind [P] is followed by some event of kind [Q]. *)
Definition followed (P Q : Event -> bool) (tr : list Event) : Prop :=
  precedes Q P (rev tr).

(** ** Data flow in the log *)

(** The host objects a script holds handles to.  The globals ([navigator],
    [document], the canvas element) are not among them. *)
Inductive Handle : Type :=
| H_adapter (adapter : GPUAdapter)
| H_device (device : GPUDevice)
| H_context (context : GPUCanvasContext)
| H_buffer (buffer : GPUBuffer)
| H_shaderModule (shaderModule : GPUShaderModule)
| H_pipeline (pipeline : GPURenderPipeline)
| H_encoder (encoder : GPUCommandEncoder)
| H_pass (pass : GPURenderPassEncoder)
| H_commandBuffer (commandBuffer : GPUCommandBuffer)
| H_texture (texture : GPUTexture)
| H_view (view : GPUTextureView).

(** The handles a call hands to the script. *)
Definition results (e : Event) : list Handle :=
  match e with
  | Test _ _ => []
  | E_requestAdapter _ result =>
      match result with Some adapter => [H_adapter adapter] | None => [] end
  | E_requestDevice _ result => [H_device result]
  | E_getContext _ _ result =>
      match result with Some context => [H_context context] | None => [] end
  | E_getPreferredCanvasFormat _ _ => []
  | E_configure _ _ => []
  | E_createBuffer _ _ result => [H_buffer result]
  | E_writeBuffer _ _ _ _ => []
  | E_createShaderModule _ _ result => [H_shaderModule result]
  | E_createRenderPipeline _ _ result => [H_pipeline result]
  | E_createCommandEncoder _ result => [H_encoder result]
  | E_getCurrentTexture _ result => [H_texture result]
  | E_createView _ result => [H_view result]
  | E_beginRenderPass _ _ result => [H_pass result]
  | E_setPipeline _ _ => []
  | E_setVertexBuffer _ _ _ => []
  | E_draw _ _ => []
  | E_end _ => []
  | E_finish _ result => [H_commandBuffer result]
  | E_submit _ _ => []
  end.

(** The handles the script hands to a call: the receiver, the arguments,
    and the handles inside the descriptors. *)
Definition arguments (e : Event) : list Handle :=
  match e with
  | Test _ _ => []
  | E_requestAdapter _ _ => []
  | E_requestDevice adapter _ => [H_adapter adapter]
  | E_getContext _ _ _ => []
  | E_getPreferredCanvasFormat _ _ => []
  | E_configure context configuration =>
      [H_context context; H_device (CanvasConfiguration.device configuration)]
  | E_createBuffer device _ _ => [H_device device]
  | E_writeBuffer device buffer _ _ => [H_device device; H_buffer buffer]
  | E_createShaderModule device _ _ => [H_device device]
  | E_createRenderPipeline device descriptor _ =>
      [ H_device device;
        H_shaderModule
          (VertexState.module (RenderPipelineDescriptor.vertex descriptor));
        H_shaderModule
          (FragmentState.module (RenderPipelineDescriptor.fragment descriptor)) ]
  | E_createCommandEncoder device _ => [H_device device]
  | E_getCurrentTexture context _ => [H_context context]
  | E_createView texture _ => [H_texture texture]
  | E_beginRenderPass encoder descriptor _ =>
      H_encoder encoder ::
      map (fun a => H_view (ColorAttachment.view a))
          (RenderPassDescriptor.colorAttachments descriptor)
  | E_setPipeline pass pipeline => [H_pass pass; H_pipeline pipeline]
  | E_setVertexBuffer pass _ buffer => [H_pass pass; H_buffer buffer]
  | E_draw pass _ => [H_pass pass]
  | E_end pass => [H_pass pass]
  | E_finish encoder _ => [H_encoder encoder]
  | E_submit device commandBuffers =>
      H_device device :: map H_commandBuffer commandBuffers
  end.

(** Every handle handed to a call is among [known] or was handed to the
    script by an earlier call. *)
Fixpoint defined_before_use (known : list Handle) (tr : list Event) : Prop :=
  match tr with
  | [] => True
  | e :: tr' =>
      (forall x, In x (arguments e) -> In x known) /\
      defined_before_use (results e ++ known) tr'
  end.

(** ** The worlds the runs end in *)

Definition cellShaderDescriptor : ShaderModuleDescriptor.t :=
  {| ShaderModuleDescriptor.label := "Cell shader";
     ShaderModuleDescriptor.code := cellShaderCode |}.

Definition cellPipelineDescriptor (gpu : GPU) : RenderPipelineDescriptor.t :=
  {| RenderPipelineDescriptor.label := "Cell pipeline";
     RenderPipelineDescriptor.layout := "auto";
     RenderPipelineDescriptor.vertex :=
       {| VertexState.module := ShaderModule 0;
          VertexState.entryPoint := "vertexMain";
          VertexState.buffers := [vertexBufferLayout] |};
     RenderPipelineDescriptor.fragment :=
       {| FragmentState.module := ShaderModule 0;
          FragmentState.entryPoint := "fragmentMain";
          FragmentState.targets :=
            [ {| ColorTargetState.format := gpu_preferredCanvasFormat gpu |} ] |} |}.

Definition clearPassDescriptor (context : GPUCanvasContext) : RenderPassDescriptor.t :=
  {| RenderPassDescriptor.colorAttachments :=
       [clearAttachment (DefaultView (CurrentTexture context))] |}.

Definition quad_commands : list PassCommand :=
  [SetPipeline (RenderPipeline 0); SetVertexBuffer 0 (Buffer 0); Draw 6].

(** After the [throw] for missing WebGPU (both scripts). *)
Definition world_without_gpu : World :=
  set_trace [Test "navigator.gpu" true] initial_world.

(** After the [throw] for a null adapter (both scripts). *)
Definition world_without_adapter (gpu : GPU) : World :=
  set_trace
    [Test "navigator.gpu" false; E_requestAdapter gpu None; Test "adapter" true]
    initial_world.

(** [main.ts] stopped by the null context. *)
Definition main_world_without_context (h : Host) (gpu : GPU) (adapter : GPUAdapter)
  : World :=
  let device := adapter_device adapter in
  {| trace :=
       [ Test "navigator.gpu" false;
         E_requestAdapter gpu (Some adapter);
         Test "adapter" false;
         E_requestDevice adapter device;
         E_getContext (document_canvas h "canvas") "webgpu" None;
         E_getPreferredCanvasFormat gpu (gpu_preferredCanvasFormat gpu);
         Test "context" true;
         E_createBuffer device (buffer_descriptor (vertexBufferState h)) (Buffer 0);
         E_writeBuffer device (Buffer 0) 0 verticies;
         E_createShaderModule device cellShaderDescriptor (ShaderModule 0);
         E_createRenderPipeline device (cellPipelineDescriptor gpu) (RenderPipeline 0);
         E_createCommandEncoder device (CommandEncoder 0) ];
     console := [];
     configured := [];
     buffers := [vertexBufferState h];
     shaderModules := [cellShaderDescriptor];
     pipelines := [cellPipelineDescriptor gpu];
     encoders := [[]];
     passes := [];
     commandBuffers := [];
     queue := [] |}.

(** [main.ts] run to its end. *)
Definition main_world (h : Host) (gpu : GPU) (adapter : GPUAdapter)
  (context : GPUCanvasContext) : World :=
  let recorded :=
    {| rp_descriptor := clearPassDescriptor context; rp_commands := quad_commands |} in
  {| trace := main_events h gpu adapter context;
     console := [12];
     configured :=
       [(context,
         {| CanvasConfiguration.device := adapter_device adapter;
            CanvasConfiguration.format := gpu_preferredCanvasFormat gpu |})];
     buffers := [vertexBufferState h];
     shaderModules := [cellShaderDescriptor];
     pipelines := [cellPipelineDescriptor gpu];
     encoders := [[recorded]];
     passes :=
       [ {| pass_encoder := CommandEncoder 0;
            pass_descriptor := clearPassDescriptor context;
            pass_commands := quad_commands |} ];
     commandBuffers := [[recorded]];
     queue := [[CommandBuffer 0]] |}.

(** The clear-only variant stopped by the null context. *)
Definition variant_world_without_context (h : Host) (gpu : GPU)
  (adapter : GPUAdapter) : World :=
  let device := adapter_device adapter in
  {| trace :=
       [ Test "navigator.gpu" false;
         E_requestAdapter gpu (Some adapter);
         Test "adapter" false;
         E_requestDevice adapter device;
         E_getContext (document_canvas h "canvas") "webgpu" None;
         E_getPreferredCanvasFormat gpu (gpu_preferredCanvasFormat gpu);
         Test "context" true;
         E_createCommandEncoder device (CommandEncoder 0) ];
     console := [];
     configured := [];
     buffers := [];
     shaderModules := [];
     pipelines := [];
     encoders := [[]];
     passes := [];
     commandBuffers := [];
     queue := [] |}.

(** The clear-only variant run to its end. *)
Definition variant_world (h : Host) (gpu : GPU) (adapter : GPUAdapter)
  (context : GPUCanvasContext) : World :=
  let recorded :=
    {| rp_descriptor := clearPassDescriptor context; rp_commands := [] |} in
  {| trace := variant_events h gpu adapter context;
     console := [];
     configured :=
       [(context,
         {| CanvasConfiguration.device := adapter_device adapter;
            CanvasConfiguration.format := gpu_preferredCanvasFormat gpu |})];
     buffers := [];
     shaderModules := [];
     pipelines := [];
     encoders := [[recorded]];
     passes :=
       [ {| pass_encoder := CommandEncoder 0;
            pass_descriptor := clearPassDescriptor context;
            pass_commands := [] |} ];
     commandBuffers := [[recorded]];
     queue := [[CommandBuffer 0]] |}.

(** ** Running a script on an arbitrary host *)

Lemma context_eqb_refl (c : GPUCanvasContext) : context_eqb c c = true.
Proof. destruct c as [i]. apply Nat.eqb_refl. Qed.

(** The three nullable answers of the host are split into cases; the script
    is then evaluated, the remaining answers staying symbolic. *)
Ltac evaluate :=
  cbv -[navigator_gpu gpu_adapter gpu_preferredCanvasFormat canvas_context
        document_canvas adapter_device GPUBufferUsage VERTEX COPY_DST
        context_eqb Z.lor Z.testbit] in *.

(** The four ways a run can go, each with the world it ends in. *)
Section Runs.

Variables (h : Host) (gpu : GPU) (adapter : GPUAdapter) (context : GPUCanvasContext).

Ltac start :=
  unfold run, main, part_000;
  cbv beta iota zeta delta [if_null requestAdapter getContext].

Lemma run_without_gpu (script : Host -> M unit) :
  In script scripts ->
  navigator_gpu h = None ->
  run script h = (Threw "WebGPU is not supported!", world_without_gpu).
Proof.
  intros [<- | [<- | []]] Hg; start; rewrite Hg; reflexivity.
Qed.

Lemma run_without_adapter (script : Host -> M unit) :
  In script scripts ->
  navigator_gpu h = Some gpu ->
  gpu_adapter gpu = None ->
  run script h = (Threw "Failed to get adapter!", world_without_adapter gpu).
Proof.
  intros [<- | [<- | []]] Hg Ha; start; rewrite Hg;
    cbv beta iota; rewrite Ha; reflexivity.
Qed.

Lemma run_main_without_context :
  navigator_gpu h = Some gpu ->
  gpu_adapter gpu = Some adapter ->
  canvas_context (document_canvas h "canvas") "webgpu" = None ->
  run main h =
    (Raised (TypeError "context"), main_world_without_context h gpu adapter).
Proof.
  intros Hg Ha Hc. start. rewrite Hg. cbv beta iota. rewrite Ha, Hc.
  evaluate. reflexivity.
Qed.

Lemma run_variant_without_context :
  navigator_gpu h = Some gpu ->
  gpu_adapter gpu = Some adapter ->
  canvas_context (document_canvas h "canvas") "webgpu" = None ->
  run part_000 h =
    (Raised (TypeError "context"), variant_world_without_context h gpu adapter).
Proof.
  intros Hg Ha Hc. start. rewrite Hg. cbv beta iota. rewrite Ha, Hc.
  evaluate. reflexivity.
Qed.

Lemma run_main_to_the_end :
  navigator_gpu h = Some gpu ->
  gpu_adapter gpu = Some adapter ->
  canvas_context (document_canvas h "canvas") "webgpu" = Some context ->
  run main h = (Returned tt, main_world h gpu adapter context).
Proof.
  intros Hg Ha Hc. start. rewrite Hg. cbv beta iota. rewrite Ha, Hc.
  evaluate. rewrite context_eqb_refl. evaluate. reflexivity.
Qed.

Lemma run_variant_to_the_end :
  navigator_gpu h = Some gpu ->
  gpu_adapter gpu = Some adapter ->
  canvas_context (document_canvas h "canvas") "webgpu" = Some context ->
  run part_000 h = (Returned tt, variant_world h gpu adapter context).
Proof.
  intros Hg Ha Hc. start. rewrite Hg. cbv beta iota. rewrite Ha, Hc.
  evaluate. rewrite context_eqb_refl. evaluate. reflexivity.
Qed.

End Runs.

Ltac run_on h :=
  let gpu := fresh "gpu" in
  let adapter := fresh "adapter" in
  let context := fresh "context" in
  let Hgpu := fresh "Hgpu" in
  let Hadapter := fresh "Hadapter" in
  let Hcontext := fresh "Hcontext" in
  unfold outcome, final in *;
  destruct (navigator_gpu h) as [gpu|] eqn:Hgpu;
  [ destruct (gpu_adapter gpu) as [adapter|] eqn:Hadapter;
    [ destruct (canvas_context (document_canvas h "canvas") "webgpu")
        as [context|] eqn:Hcontext;
      [ rewrite ?(run_main_to_the_end h gpu adapter context Hgpu Hadapter Hcontext),
                ?(run_variant_to_the_end h gpu adapter context Hgpu Hadapter Hcontext)
          in *
      | rewrite ?(run_main_without_context h gpu adapter Hgpu Hadapter Hcontext),
                ?(run_variant_without_context h gpu adapter Hgpu Hadapter Hcontext)
          in * ]
    | rewrite ?(run_without_adapter h gpu main (or_introl eq_refl) Hgpu Hadapter),
              ?(run_without_adapter h gpu part_000 (or_intror (or_introl eq_refl))
                  Hgpu Hadapter) in * ]
  | rewrite ?(run_without_gpu h main (or_introl eq_refl) Hgpu),
            ?(run_without_gpu h part_000 (or_intror (or_introl eq_refl)) Hgpu) in * ];
  repeat (progress (evaluate;
                    rewrite ?Hgpu, ?Hadapter, ?Hcontext, ?context_eqb_refl in * )).

Lemma precedesb_seen (P Q : Event -> bool) (tr : list Event) :
  forall seen, precedesb P Q seen tr = true ->
  forall i q, tr !! i = Some q -> Q q = true ->
    seen = true \/ exists j p, (j < i)%nat /\ tr !! j = Some p /\ P p = true.
Proof.
  induction tr as [|e tr IH]; intros seen Hb i q Hi Hq.
  - discriminate Hi.
  - simpl in Hb. apply andb_prop in Hb as [Hhere Hrest].
    destruct i as [|i]; simpl in Hi.
    + injection Hi as ->. rewrite Hq in Hhere. simpl in Hhere. now left.
    + destruct (IH _ Hrest i q Hi Hq) as [Hseen | (j & p & Hlt & Hj & Hp)].
      * apply orb_prop in Hseen as [-> | HP]; [now left|].
        right. exists 0%nat, e. repeat split; [lia | assumption].
      * right. exists (S j), p. repeat split; [lia | assumption | assumption].
Qed.

Lemma precedesb_sound (P Q : Event -> bool) (tr : list Event) :
  precedesb P Q false tr = true -> precedes P Q tr.
Proof.
  intros Hb i q Hi Hq.
  destruct (precedesb_seen P Q tr false Hb i q Hi Hq) as [Hf | H]; [discriminate | exact H].
Qed.

(** The run of [main.ts] when nothing is null. *)
Lemma main_completes (h : Host) gpu adapter context :
  navigator_gpu h = Some gpu ->
  gpu_adapter gpu = Some adapter ->
  canvas_context (document_canvas h "canvas") "webgpu" = Some context ->
  outcome main h = Returned tt /\
  trace (final main h) = main_events h gpu adapter context.
Proof.
  intros Hg Ha Hc. unfold outcome, final, run, main.
  rewrite Hg. evaluate. rewrite Ha. evaluate. rewrite Hc. evaluate.
  rewrite context_eqb_refl. evaluate. split; reflexivity.
Qed.

(** Claim C1.  Every run of [main.ts] that reaches the queue submission went
    through the nine steps in order: capability query, adapter request,
    device request, canvas configuration with the device and the preferred
    format, vertex buffer allocation and upload, shader module, render
    pipeline, recording of the one command buffer, submission.  In
    particular the device request comes before the configuration, the
    shader module before the pipeline, the pipeline before the pass
    commands.  The run's events are exactly [main_events]. *)
Theorem C1_call_order (h : Host) :
  reaches_submission (final main h) = true ->
  exists gpu adapter context,
    navigator_gpu h = Some gpu /\
    gpu_adapter gpu = Some adapter /\
    canvas_context (document_canvas h "canvas") "webgpu" = Some context /\
    trace (final main h) = main_events h gpu adapter context /\
    omap step (trace (final main h)) =
      [1; 2; 3; 4; 4; 4; 5; 5; 6; 7; 8; 8; 8; 8; 8; 8; 8; 8; 8; 9]%nat /\
    precedes is_requestDevice is_configure (trace (final main h)) /\
    precedes is_createShaderModule is_createRenderPipeline (trace (final main h)) /\
    precedes is_createRenderPipeline is_pass_command (trace (final main h)).
Proof.
  intros Hsubmit.
  destruct (navigator_gpu h) as [gpu|] eqn:Hgpu.
  2: { unfold reaches_submission, final, run, main in Hsubmit.
       rewrite Hgpu in Hsubmit. discriminate Hsubmit. }
  destruct (gpu_adapter gpu) as [adapter|] eqn:Hadapter.
  2: { unfold reaches_submission, final, run, main in Hsubmit.
       rewrite Hgpu in Hsubmit. evaluate. rewrite Hadapter in Hsubmit.
       discriminate Hsubmit. }
  destruct (canvas_context (document_canvas h "canvas") "webgpu")
    as [context|] eqn:Hcontext.
  2: { unfold reaches_submission, final, run, main in Hsubmit.
       rewrite Hgpu in Hsubmit. evaluate. rewrite Hadapter in Hsubmit.
       evaluate. rewrite Hcontext in Hsubmit. discriminate Hsubmit. }
  destruct (main_completes h gpu adapter context Hgpu Hadapter Hcontext) as [_ Htrace].
  exists gpu, adapter, context. rewrite Htrace.
  repeat apply conj; try assumption; try reflexivity;
    apply precedesb_sound; reflexivity.
Qed.

Lemma C1_call_order_witness :
  exists gpu adapter context,
    navigator_gpu full_host = Some gpu /\
    gpu_adapter gpu = Some adapter /\
    canvas_context (document_canvas full_host "canvas") "webgpu" = Some context /\
    trace (final main full_host) = main_events full_host gpu adapter context /\
    omap step (trace (final main full_host)) =
      [1; 2; 3; 4; 4; 4; 5; 5; 6; 7; 8; 8; 8; 8; 8; 8; 8; 8; 8; 9]%nat /\
    precedes is_requestDevice is_configure (trace (final main full_host)) /\
    precedes is_createShaderModule is_createRenderPipeline
      (trace (final main full_host)) /\
    precedes is_createRenderPipeline is_pass_command (trace (final main full_host)).
Proof. apply (C1_call_order full_host). vm_compute. reflexivity. Defined.

(** The two aborting runs and the null-context run, on concrete hosts. *)
Example main_without_gpu :
  run main no_gpu_host =
    (Threw "WebGPU is not supported!",
     set_trace [Test "navigator.gpu" true] initial_world).
Proof. reflexivity. Qed.

Example main_without_adapter :
  outcome main no_adapter_host = Threw "Failed to get adapter!" /\
  omap step (trace (final main no_adapter_host)) = [1; 2]%nat.
Proof. split; reflexivity. Qed.

Example main_without_context :
  outcome main null_context_host = Raised (TypeError "context") /\
  omap step (trace (final main null_context_host)) =
    [1; 2; 3; 4; 4; 5; 5; 6; 7; 8]%nat.
Proof. split; reflexivity. Qed.

Example variant_on_full_host :
  outcome part_000 full_host = Returned tt /\
  omap step (trace (final part_000 full_host)) =
    [1; 2; 3; 4; 4; 4; 8; 8; 8; 8; 8; 8; 9]%nat.
Proof. split; reflexivity. Qed.

(** Claim C2.  Every successful run of [main.ts] records exactly one command
    buffer; it holds exactly one render pass, whose single colour attachment
    has loadOp "clear" and storeOp "store" and which holds exactly one draw
    call; exactly one submission is made, of that one command buffer. *)
Theorem C2_one_clear_and_draw (h : Host) :
  outcome main h = Returned tt ->
  exists pass attachment,
    commandBuffers (final main h) = [[pass]] /\
    RenderPassDescriptor.colorAttachments (rp_descriptor pass) = [attachment] /\
    ColorAttachment.loadOp attachment = "clear" /\
    ColorAttachment.storeOp attachment = "store" /\
    length (List.filter is_draw_command (rp_commands pass)) = 1%nat /\
    queue (final main h) = [[CommandBuffer 0]] /\
    count is_finish (trace (final main h)) = 1%nat /\
    count is_beginRenderPass (trace (final main h)) = 1%nat /\
    count is_draw (trace (final main h)) = 1%nat /\
    count is_submit (trace (final main h)) = 1%nat /\
    (exists adapter device,
       In (E_requestDevice adapter device) (trace (final main h)) /\
       In (E_submit device [CommandBuffer 0]) (trace (final main h))) /\
    In (E_beginRenderPass (CommandEncoder 0) (rp_descriptor pass)
          (RenderPassEncoder 0)) (trace (final main h)) /\
    In (E_finish (CommandEncoder 0) (CommandBuffer 0)) (trace (final main h)).
Proof.
  intros Hdone. run_on h; try discriminate Hdone.
  eexists. eexists.
  repeat apply conj; try reflexivity.
  - eexists. eexists. split.
    + do 3 right. left. reflexivity.
    + do 21 right. left. reflexivity.
  - do 15 right. left. reflexivity.
  - do 20 right. left. reflexivity.
Qed.

Lemma C2_one_clear_and_draw_witness :
  outcome main full_host = Returned tt /\
  exists pass attachment,
    commandBuffers (final main full_host) = [[pass]] /\
    RenderPassDescriptor.colorAttachments (rp_descriptor pass) = [attachment] /\
    ColorAttachment.loadOp attachment = "clear" /\
    ColorAttachment.storeOp attachment = "store" /\
    length (List.filter is_draw_command (rp_commands pass)) = 1%nat /\
    queue (final main full_host) = [[CommandBuffer 0]] /\
    count is_finish (trace (final main full_host)) = 1%nat /\
    count is_beginRenderPass (trace (final main full_host)) = 1%nat /\
    count is_draw (trace (final main full_host)) = 1%nat /\
    count is_submit (trace (final main full_host)) = 1%nat /\
    (exists adapter device,
       In (E_requestDevice adapter device) (trace (final main full_host)) /\
       In (E_submit device [CommandBuffer 0]) (trace (final main full_host))) /\
    In (E_beginRenderPass (CommandEncoder 0) (rp_descriptor pass)
          (RenderPassEncoder 0)) (trace (final main full_host)) /\
    In (E_finish (CommandEncoder 0) (CommandBuffer 0)) (trace (final main full_host)).
Proof.
  split; [reflexivity | apply (C2_one_clear_and_draw full_host); reflexivity].
Defined.

(** Claim C3.  [main.ts] ends by a [throw] of its own exactly when GPU
    support is missing or the adapter request yields null.  With
    [navigator.gpu] absent the message is 'WebGPU is not supported!' and
    nothing was called; with a null adapter the message is 'Failed to get
    adapter!' and no device was requested.  No other path executes a
    [throw]: the only other abnormal end is the runtime's [TypeError] on
    the null context, which is not an error of the script's own. *)
Theorem C3_throws (h : Host) :
  (forall message,
     outcome main h = Threw message <->
     (navigator_gpu h = None /\ message = "WebGPU is not supported!") \/
     (exists gpu, navigator_gpu h = Some gpu /\ gpu_adapter gpu = None /\
                  message = "Failed to get adapter!")) /\
  (navigator_gpu h = None ->
     trace (final main h) = [Test "navigator.gpu" true]) /\
  (forall gpu, navigator_gpu h = Some gpu -> gpu_adapter gpu = None ->
     trace (final main h) =
       [Test "navigator.gpu" false; E_requestAdapter gpu None; Test "adapter" true] /\
     existsb is_requestDevice (trace (final main h)) = false) /\
  (forall e, outcome main h = Raised e ->
     e = TypeError "context" /\
     canvas_context (document_canvas h "canvas") "webgpu" = None).
Proof.
  run_on h; repeat apply conj.
  - intros message; split.
    + discriminate.
    + intros [[Hnone _] | (g & Hsome & Hnone & _)]; [discriminate Hnone|].
      injection Hsome as <-. rewrite Hadapter in Hnone. discriminate Hnone.
  - discriminate.
  - intros g Hsome Hnone. injection Hsome as <-.
    rewrite Hadapter in Hnone. discriminate Hnone.
  - discriminate.
  - intros message; split.
    + discriminate.
    + intros [[Hnone _] | (g & Hsome & Hnone & _)]; [discriminate Hnone|].
      injection Hsome as <-. rewrite Hadapter in Hnone. discriminate Hnone.
  - discriminate.
  - intros g Hsome Hnone. injection Hsome as <-.
    rewrite Hadapter in Hnone. discriminate Hnone.
  - intros e He. injection He as <-. split; reflexivity.
  - intros message; split.
    + intros Hthrew. injection Hthrew as <-. right. exists gpu. repeat split.
      exact Hadapter.
    + intros [[Hnone _] | (g & _ & _ & ->)]; [discriminate Hnone | reflexivity].
  - discriminate.
  - intros g Hsome _. injection Hsome as <-. split; reflexivity.
  - discriminate.
  - intros message; split.
    + intros Hthrew. injection Hthrew as <-. left. split; reflexivity.
    + intros [[_ ->] | (g & Hsome & _)]; [reflexivity | discriminate Hsome].
  - reflexivity.
  - discriminate.
  - discriminate.
Qed.

(** Claim C4, as worded, fails: on a host where everything is available the
    script also tests [context], the result of [getContext]. *)
Lemma C4_context_is_tested :
  ~ only_two_null_checks (trace (final main full_host)).
Proof.
  intros Hclaim.
  destruct (Hclaim "context") as [Hgpu | Hadapter].
  - vm_compute. right. right. left. reflexivity.
  - discriminate Hgpu.
  - discriminate Hadapter.
Qed.

(** Claim C4, amended.  [main.ts] tests exactly three results for null:
    [navigator.gpu] and the adapter, each of which aborts the script with a
    [throw] when null, and the context returned by [getContext], whose null
    case does not abort but only skips [configure]; nothing else is
    tested. *)
Theorem C4_null_checks (h : Host) :
  (navigator_gpu h = None /\
   tested (trace (final main h)) = ["navigator.gpu"] /\
   outcome main h = Threw "WebGPU is not supported!") \/
  (exists gpu,
     navigator_gpu h = Some gpu /\ gpu_adapter gpu = None /\
     tested (trace (final main h)) = ["navigator.gpu"; "adapter"] /\
     outcome main h = Threw "Failed to get adapter!") \/
  (exists gpu adapter,
     navigator_gpu h = Some gpu /\ gpu_adapter gpu = Some adapter /\
     tested (trace (final main h)) = ["navigator.gpu"; "adapter"; "context"] /\
     (forall message, outcome main h <> Threw message) /\
     (canvas_context (document_canvas h "canvas") "webgpu" = None ->
        In (Test "context" true) (trace (final main h)) /\
        existsb is_configure (trace (final main h)) = false /\
        existsb is_createBuffer (trace (final main h)) = true) /\
     (forall context,
        canvas_context (document_canvas h "canvas") "webgpu" = Some context ->
        In (Test "context" false) (trace (final main h)) /\
        existsb is_configure (trace (final main h)) = true)).
Proof.
  run_on h.
  - right. right. exists gpu, adapter.
    repeat apply conj; try reflexivity; try discriminate; try assumption.
    intros c _. split; [|reflexivity]. do 6 right. left. reflexivity.
  - right. right. exists gpu, adapter.
    repeat apply conj; try reflexivity; try discriminate; try assumption.
    intros _. repeat apply conj; try reflexivity.
    do 6 right. left. reflexivity.
  - right. left. exists gpu. repeat apply conj; try reflexivity; assumption.
  - left. repeat apply conj; reflexivity.
Qed.

(** Claim C5.  Whenever [main.ts] configures the canvas, it does so with
    the device that the adapter's [requestDevice] returned and with the
    format that [getPreferredCanvasFormat] returned; the render pipeline is
    then created with exactly one fragment colour target, of that same
    format. *)
Theorem C5_device_and_format (h : Host) (context : GPUCanvasContext)
  (configuration : CanvasConfiguration.t) :
  In (E_configure context configuration) (trace (final main h)) ->
  exists gpu adapter pipeline,
    navigator_gpu h = Some gpu /\
    gpu_adapter gpu = Some adapter /\
    In (E_requestDevice adapter (CanvasConfiguration.device configuration))
       (trace (final main h)) /\
    In (E_getPreferredCanvasFormat gpu (CanvasConfiguration.format configuration))
       (trace (final main h)) /\
    CanvasConfiguration.device configuration = adapter_device adapter /\
    CanvasConfiguration.format configuration = gpu_preferredCanvasFormat gpu /\
    configured (final main h) = [(context, configuration)] /\
    pipelines (final main h) = [pipeline] /\
    FragmentState.targets (RenderPipelineDescriptor.fragment pipeline) =
      [ {| ColorTargetState.format := CanvasConfiguration.format configuration |} ].
Proof.
  intros Hin. run_on h;
    repeat (destruct Hin as [Hin | Hin]; try discriminate Hin); try contradiction.
  injection Hin as <- <-.
  exists gpu, adapter. eexists.
  repeat apply conj; try reflexivity; try assumption.
  - do 3 right. left. reflexivity.
  - do 5 right. left. reflexivity.
Qed.

Lemma C5_device_and_format_witness :
  exists gpu adapter pipeline,
    navigator_gpu full_host = Some gpu /\
    gpu_adapter gpu = Some adapter /\
    In (E_requestDevice adapter (Device 0)) (trace (final main full_host)) /\
    In (E_getPreferredCanvasFormat gpu "bgra8unorm") (trace (final main full_host)) /\
    Device 0 = adapter_device adapter /\
    "bgra8unorm" = gpu_preferredCanvasFormat gpu /\
    configured (final main full_host) =
      [(CanvasContext 0,
        {| CanvasConfiguration.device := Device 0;
           CanvasConfiguration.format := "bgra8unorm" |})] /\
    pipelines (final main full_host) = [pipeline] /\
    FragmentState.targets (RenderPipelineDescriptor.fragment pipeline) =
      [ {| ColorTargetState.format := "bgra8unorm" |} ].
Proof.
  apply (C5_device_and_format full_host (CanvasContext 0)
           {| CanvasConfiguration.device := Device 0;
              CanvasConfiguration.format := "bgra8unorm" |}).
  vm_compute. do 7 right. left. reflexivity.
Defined.

(** The vertex buffer exists, filled, as soon as a device is obtained,
    whether or not the canvas yields a context. *)
Lemma main_buffers (h : Host) gpu adapter :
  navigator_gpu h = Some gpu ->
  gpu_adapter gpu = Some adapter ->
  buffers (final main h) = [vertexBufferState h] /\
  In (E_createBuffer (adapter_device adapter)
        (buffer_descriptor (vertexBufferState h)) (Buffer 0))
     (trace (final main h)) /\
  In (E_writeBuffer (adapter_device adapter) (Buffer 0) 0 verticies)
     (trace (final main h)).
Proof.
  intros Hg Ha. run_on h; try discriminate Hg;
    injection Hg as <-; rewrite Hadapter in Ha; try discriminate Ha.
  - injection Ha as <-. repeat apply conj.
    + reflexivity.
    + do 8 right. left. reflexivity.
    + do 9 right. left. reflexivity.
  - injection Ha as <-. repeat apply conj.
    + reflexivity.
    + do 7 right. left. reflexivity.
    + do 8 right. left. reflexivity.
Qed.

Lemma array_bytes_lookup (i : nat) :
  (i < 48)%nat ->
  exists x, verticies !! (i / 4)%nat = Some x /\
            array_bytes verticies !! i = Some (F32Byte x (i mod 4)%nat).
Proof.
  intros Hi.
  do 48 (destruct i as [|i]; [eexists; split; reflexivity|]).
  lia.
Qed.

(** Claim C6.  Once a device is obtained, [main.ts] allocates one buffer
    whose size is the byte length of the 12-element [verticies] array, 48
    bytes, with usage VERTEX | COPY_DST, and [writeBuffer] copies the whole
    array to offset 0: the buffer's content is the array's 48 bytes, byte
    [i] being byte [i mod 4] of element [i / 4]. *)
Theorem C6_vertex_buffer (h : Host) (gpu : GPU) (adapter : GPUAdapter) :
  navigator_gpu h = Some gpu ->
  gpu_adapter gpu = Some adapter ->
  exists b,
    buffers (final main h) = [b] /\
    In (E_createBuffer (adapter_device adapter) (buffer_descriptor b) (Buffer 0))
       (trace (final main h)) /\
    array_length verticies = 12 /\
    BufferDescriptor.size (buffer_descriptor b) = byteLength verticies /\
    byteLength verticies = 48 /\
    BufferDescriptor.usage (buffer_descriptor b) =
      Z.lor (VERTEX (GPUBufferUsage h)) (COPY_DST (GPUBufferUsage h)) /\
    (forall n, Z.testbit (BufferDescriptor.usage (buffer_descriptor b)) n =
               Z.testbit (VERTEX (GPUBufferUsage h)) n ||
               Z.testbit (COPY_DST (GPUBufferUsage h)) n) /\
    In (E_writeBuffer (adapter_device adapter) (Buffer 0) 0 verticies)
       (trace (final main h)) /\
    buffer_content b = array_bytes verticies /\
    Z.of_nat (length (buffer_content b)) = BufferDescriptor.size (buffer_descriptor b) /\
    (forall i, (i < 48)%nat ->
       exists x, verticies !! (i / 4)%nat = Some x /\
                 buffer_content b !! i = Some (F32Byte x (i mod 4)%nat)).
Proof.
  intros Hg Ha.
  destruct (main_buffers h gpu adapter Hg Ha) as (Hbuffers & Hcreate & Hwrite).
  exists (vertexBufferState h).
  repeat apply conj; try assumption; try reflexivity.
  - intros n. apply Z.lor_spec.
  - apply array_bytes_lookup.
Qed.

Lemma C6_vertex_buffer_witness :
  exists b,
    buffers (final main null_context_host) = [b] /\
    In (E_createBuffer (Device 0) (buffer_descriptor b) (Buffer 0))
       (trace (final main null_context_host)) /\
    array_length verticies = 12 /\
    BufferDescriptor.size (buffer_descriptor b) = byteLength verticies /\
    byteLength verticies = 48 /\
    BufferDescriptor.usage (buffer_descriptor b) = Z.lor 32 8 /\
    (forall n, Z.testbit (BufferDescriptor.usage (buffer_descriptor b)) n =
               Z.testbit 32 n || Z.testbit 8 n) /\
    In (E_writeBuffer (Device 0) (Buffer 0) 0 verticies)
       (trace (final main null_context_host)) /\
    buffer_content b = array_bytes verticies /\
    Z.of_nat (length (buffer_content b)) = BufferDescriptor.size (buffer_descriptor b) /\
    (forall i, (i < 48)%nat ->
       exists x, verticies !! (i / 4)%nat = Some x /\
                 buffer_content b !! i = Some (F32Byte x (i mod 4)%nat)).
Proof.
  apply (C6_vertex_buffer null_context_host full_gpu {| adapter_device := Device 0 |});
    reflexivity.
Defined.

(** Claim C7.  The render pipeline of [main.ts] names the one shader module,
    compiled from the inline source text, for its vertex stage (entry point
    vertexMain) and for its fragment stage (entry point fragmentMain); the
    vertex stage's buffer list is exactly the declared layout: arrayStride
    8 and one attribute, float32x2 at offset 0, shader location 0. *)
Theorem C7_pipeline_stages (h : Host) (device : GPUDevice)
  (descriptor : RenderPipelineDescriptor.t) (pipeline : GPURenderPipeline) :
  In (E_createRenderPipeline device descriptor pipeline) (trace (final main h)) ->
  shaderModules (final main h) =
    [ {| ShaderModuleDescriptor.label := "Cell shader";
         ShaderModuleDescriptor.code := cellShaderCode |} ] /\
  count is_createShaderModule (trace (final main h)) = 1%nat /\
  In (E_createShaderModule device
        {| ShaderModuleDescriptor.label := "Cell shader";
           ShaderModuleDescriptor.code := cellShaderCode |} (ShaderModule 0))
     (trace (final main h)) /\
  VertexState.module (RenderPipelineDescriptor.vertex descriptor) = ShaderModule 0 /\
  VertexState.entryPoint (RenderPipelineDescriptor.vertex descriptor) = "vertexMain" /\
  FragmentState.module (RenderPipelineDescriptor.fragment descriptor) = ShaderModule 0 /\
  FragmentState.entryPoint (RenderPipelineDescriptor.fragment descriptor) =
    "fragmentMain" /\
  VertexState.buffers (RenderPipelineDescriptor.vertex descriptor) =
    [vertexBufferLayout] /\
  vertexBufferLayout =
    {| VertexBufferLayout.arrayStride := 8;
       VertexBufferLayout.attributes :=
         [ {| VertexAttribute.format := "float32x2";
              VertexAttribute.offset := 0;
              VertexAttribute.shaderLocation := 0 |} ] |} /\
  is_Some (String.index 0 "fn vertexMain(" cellShaderCode) /\
  is_Some (String.index 0 "fn fragmentMain(" cellShaderCode).
Proof.
  intros Hin.
  assert (Hcode : is_Some (String.index 0 "fn vertexMain(" cellShaderCode) /\
                  is_Some (String.index 0 "fn fragmentMain(" cellShaderCode)).
  { split; vm_compute; eexists; reflexivity. }
  destruct Hcode as [Hvertex Hfragment].
  clear - Hin Hvertex Hfragment.
  repeat apply conj; try assumption; try reflexivity; clear Hvertex Hfragment;
    run_on h;
    repeat (destruct Hin as [Hin | Hin]; try discriminate Hin);
    try contradiction;
    injection Hin as <- <- <-; try reflexivity.
  - do 10 right. left. reflexivity.
  - do 9 right. left. reflexivity.
Qed.

Lemma C7_pipeline_stages_witness :
  exists descriptor,
    In (E_createRenderPipeline (Device 0) descriptor (RenderPipeline 0))
       (trace (final main null_context_host)) /\
    VertexState.module (RenderPipelineDescriptor.vertex descriptor) = ShaderModule 0 /\
    FragmentState.module (RenderPipelineDescriptor.fragment descriptor) =
      ShaderModule 0 /\
    VertexState.buffers (RenderPipelineDescriptor.vertex descriptor) =
      [vertexBufferLayout].
Proof.
  eexists.
  assert (Hin : In (E_createRenderPipeline (Device 0)
                      {| RenderPipelineDescriptor.label := "Cell pipeline";
                         RenderPipelineDescriptor.layout := "auto";
                         RenderPipelineDescriptor.vertex :=
                           {| VertexState.module := ShaderModule 0;
                              VertexState.entryPoint := "vertexMain";
                              VertexState.buffers := [vertexBufferLayout] |};
                         RenderPipelineDescriptor.fragment :=
                           {| FragmentState.module := ShaderModule 0;
                              FragmentState.entryPoint := "fragmentMain";
                              FragmentState.targets :=
                                [ {| ColorTargetState.format := "bgra8unorm" |} ] |} |}
                      (RenderPipeline 0))
                   (trace (final main null_context_host))).
  { vm_compute. do 10 right. left. reflexivity. }
  split; [exact Hin|].
  destruct (C7_pipeline_stages null_context_host _ _ _ Hin)
    as (_ & _ & _ & Hv & _ & Hf & _ & Hb & _).
  repeat split; assumption.
Defined.

(** Claim C8.  When [getContext("webgpu")] returns null, [main.ts] skips
    [configure] and carries on; after creating the command encoder it
    dereferences the null context for the colour attachment's view, and
    the run ends there with the runtime's [TypeError], before any render
    pass is begun. *)
Theorem C8_null_context_dereferenced (h : Host) (gpu : GPU) (adapter : GPUAdapter) :
  navigator_gpu h = Some gpu ->
  gpu_adapter gpu = Some adapter ->
  canvas_context (document_canvas h "canvas") "webgpu" = None ->
  outcome main h = Raised (TypeError "context") /\
  In (Test "context" true) (trace (final main h)) /\
  existsb is_configure (trace (final main h)) = false /\
  configured (final main h) = [] /\
  last (trace (final main h)) =
    Some (E_createCommandEncoder (adapter_device adapter) (CommandEncoder 0)) /\
  omap step (trace (final main h)) = [1; 2; 3; 4; 4; 5; 5; 6; 7; 8]%nat /\
  existsb is_beginRenderPass (trace (final main h)) = false /\
  forall w, deref "context" (@None GPUCanvasContext) w = (Raised (TypeError "context"), w).
Proof.
  intros Hg Ha Hc. unfold outcome, final, run, main.
  rewrite Hg. evaluate. rewrite Ha. evaluate. rewrite Hc. evaluate.
  repeat apply conj; try reflexivity.
  do 6 right. left. reflexivity.
Qed.

Lemma C8_null_context_dereferenced_witness :
  outcome main null_context_host = Raised (TypeError "context") /\
  existsb is_configure (trace (final main null_context_host)) = false /\
  last (trace (final main null_context_host)) =
    Some (E_createCommandEncoder (Device 0) (CommandEncoder 0)).
Proof.
  destruct (C8_null_context_dereferenced null_context_host full_gpu
              {| adapter_device := Device 0 |} eq_refl eq_refl eq_refl)
    as (Hout & _ & Hskip & _ & Hlast & _).
  repeat split; assumption.
Defined.

(** A draw call is logged only by a run that met no null. *)
Lemma main_draws (h : Host) pass vertexCount :
  In (E_draw pass vertexCount) (trace (final main h)) ->
  vertexCount = 6 /\ pass = RenderPassEncoder 0 /\
  exists gpu adapter context,
    navigator_gpu h = Some gpu /\ gpu_adapter gpu = Some adapter /\
    canvas_context (document_canvas h "canvas") "webgpu" = Some context.
Proof.
  intros Hin. run_on h;
    repeat (destruct Hin as [Hin | Hin]; try discriminate Hin); try contradiction.
  injection Hin as <- <-. repeat split. exists gpu, adapter, context.
  repeat split; assumption.
Qed.

Lemma quad_vertex_in_bounds (v : Z) (a : VertexAttribute.t) (size : Z) :
  0 <= v < 6 ->
  In a (VertexBufferLayout.attributes vertexBufferLayout) ->
  vertex_format_size (VertexAttribute.format a) = Some size ->
  0 <= attribute_first vertexBufferLayout v a /\
  attribute_first vertexBufferLayout v a + size <= 48.
Proof.
  intros Hv [<- | []] Hsize. injection Hsize as <-.
  unfold attribute_first, BYTES_PER_ELEMENT. simpl. lia.
Qed.

Lemma quad_byte_is_read (i : Z) :
  0 <= i < 48 ->
  exists v a size,
    0 <= v < 6 /\
    In a (VertexBufferLayout.attributes vertexBufferLayout) /\
    vertex_format_size (VertexAttribute.format a) = Some size /\
    attribute_first vertexBufferLayout v a <= i <
      attribute_first vertexBufferLayout v a + size.
Proof.
  intros Hi. exists (i / 8).
  eexists. eexists. split; [|split; [left; reflexivity | split; [reflexivity|]]].
  - split; [apply Z.div_pos; lia | apply Z.div_lt_upper_bound; lia].
  - unfold attribute_first, BYTES_PER_ELEMENT. simpl.
    pose proof (Z.div_mod i 8 ltac:(lia)) as Hdiv.
    pose proof (Z.mod_pos_bound i 8 ltac:(lia)) as Hmod. lia.
Qed.

(** Claim C9.  The draw call of [main.ts] has vertex count
    [verticies.length / 2 = 6]; 6 vertices times the declared arrayStride
    of 8 bytes is the size of the vertex buffer, 48 bytes; every vertex
    reads its attribute inside the buffer, and every byte of the buffer is
    read by some vertex. *)
Theorem C9_draw_covers_buffer (h : Host) (pass : GPURenderPassEncoder)
  (vertexCount : Z) :
  In (E_draw pass vertexCount) (trace (final main h)) ->
  vertexCount = 6 /\
  js_div (inject_Z (array_length verticies)) 2 = 6%Q /\
  vertexCount = to_GPUSize32 (js_div (inject_Z (array_length verticies)) 2) /\
  In (E_setVertexBuffer pass 0 (Buffer 0)) (trace (final main h)) /\
  exists b,
    buffers (final main h) !! 0%nat = Some b /\
    BufferDescriptor.size (buffer_descriptor b) = 48 /\
    vertexCount * VertexBufferLayout.arrayStride vertexBufferLayout =
      BufferDescriptor.size (buffer_descriptor b) /\
    Z.of_nat (length (buffer_content b)) = BufferDescriptor.size (buffer_descriptor b) /\
    buffer_content b = array_bytes verticies /\
    (forall v a size,
       0 <= v < vertexCount ->
       In a (VertexBufferLayout.attributes vertexBufferLayout) ->
       vertex_format_size (VertexAttribute.format a) = Some size ->
       0 <= attribute_first vertexBufferLayout v a /\
       attribute_first vertexBufferLayout v a + size <=
         BufferDescriptor.size (buffer_descriptor b)) /\
    (forall i,
       0 <= i < BufferDescriptor.size (buffer_descriptor b) ->
       exists v a size,
         0 <= v < vertexCount /\
         In a (VertexBufferLayout.attributes vertexBufferLayout) /\
         vertex_format_size (VertexAttribute.format a) = Some size /\
         attribute_first vertexBufferLayout v a <= i <
           attribute_first vertexBufferLayout v a + size).
Proof.
  intros Hin.
  destruct (main_draws h pass vertexCount Hin)
    as (-> & -> & gpu & adapter & context & Hg & Ha & Hc).
  destruct (main_completes h gpu adapter context Hg Ha Hc) as [_ Htrace].
  destruct (main_buffers h gpu adapter Hg Ha) as (Hbuffers & _ & _).
  rewrite Htrace, Hbuffers.
  repeat apply conj; try reflexivity.
  - do 17 right. left. reflexivity.
  - exists (vertexBufferState h).
    repeat apply conj; try reflexivity.
    + apply quad_vertex_in_bounds.
    + apply quad_byte_is_read.
Qed.

Lemma C9_draw_covers_buffer_witness :
  In (E_draw (RenderPassEncoder 0) 6) (trace (final main full_host)) /\
  In (E_setVertexBuffer (RenderPassEncoder 0) 0 (Buffer 0))
     (trace (final main full_host)) /\
  exists b,
    buffers (final main full_host) !! 0%nat = Some b /\
    6 * VertexBufferLayout.arrayStride vertexBufferLayout =
      BufferDescriptor.size (buffer_descriptor b).
Proof.
  assert (Hin : In (E_draw (RenderPassEncoder 0) 6) (trace (final main full_host))).
  { vm_compute. do 18 right. left. reflexivity. }
  split; [exact Hin|].
  destruct (C9_draw_covers_buffer full_host _ _ Hin)
    as (_ & _ & _ & Hset & b & Hb & _ & Hsize & _).
  split; [exact Hset|]. exists b. split; assumption.
Defined.

(** Claim C10, as worded, fails: [main.ts] also writes [verticies.length]
    to the console, which is none of the listed differences. *)
Lemma C10_console_differs : ~ differs_only_by_extras full_host.
Proof.
  unfold differs_only_by_extras. intros Hclaim.
  apply (f_equal (fun r => console (snd r))) in Hclaim.
  vm_compute in Hclaim. discriminate Hclaim.
Qed.

(** Claim C10, amended.  On every host the clear-only variant ends as
    [main.ts] does, and its run is the run of [main.ts] with the vertex
    buffer, the shader module, the pipeline, the three pass commands and
    the console line taken out.  Both runs start with the same
    initialization events; when they complete, both have recorded one
    render pass with the same colour attachment (clearValue
    [0.8, 0.9, 0.9, 1], loadOp "clear", storeOp "store"), holding
    setPipeline, setVertexBuffer and draw in [main.ts] and nothing in the
    variant, and both have made one submission; [main.ts] has logged 12. *)
Theorem C10_clear_only_refinement (h : Host) :
  run part_000 h =
    (outcome main h, set_console [] (without_extras (final main h))) /\
  List.filter is_initialization (trace (final part_000 h)) =
    List.filter is_initialization (trace (final main h)) /\
  (exists rest_main rest_variant,
     trace (final main h) =
       List.filter is_initialization (trace (final main h)) ++ rest_main /\
     trace (final part_000 h) =
       List.filter is_initialization (trace (final main h)) ++ rest_variant) /\
  (outcome main h = Returned tt ->
   exists view,
     ColorAttachment.clearValue (clearAttachment view) = [0.8; 0.9; 0.9; 1]%Q /\
     ColorAttachment.loadOp (clearAttachment view) = "clear" /\
     ColorAttachment.storeOp (clearAttachment view) = "store" /\
     commandBuffers (final part_000 h) =
       [[ {| rp_descriptor :=
               {| RenderPassDescriptor.colorAttachments := [clearAttachment view] |};
             rp_commands := [] |} ]] /\
     commandBuffers (final main h) =
       [[ {| rp_descriptor :=
               {| RenderPassDescriptor.colorAttachments := [clearAttachment view] |};
             rp_commands :=
               [ SetPipeline (RenderPipeline 0); SetVertexBuffer 0 (Buffer 0);
                 Draw 6 ] |} ]] /\
     queue (final part_000 h) = [[CommandBuffer 0]] /\
     queue (final main h) = [[CommandBuffer 0]] /\
     count is_extra (trace (final main h)) = 7%nat /\
     count is_extra (trace (final part_000 h)) = 0%nat /\
     console (final main h) = [12] /\
     console (final part_000 h) = []).
Proof.
  run_on h; repeat apply conj; try reflexivity; try discriminate.
  - eexists. eexists. split; reflexivity.
  - intros _. eexists. repeat apply conj; reflexivity.
  - eexists. eexists. split; reflexivity.
  - eexists. eexists. split; reflexivity.
  - eexists. eexists. split; reflexivity.
Qed.

(** * Further properties of the two scripts *)

Ltac find_in := repeat (first [left; reflexivity | right]).

Ltac pick_script Hs :=
  destruct Hs as [<- | [<- | []]].

(** X1.  [main.ts] returns exactly when the browser has WebGPU, an adapter
    is found and the canvas yields a context; these are also exactly the
    runs that reach the queue submission. *)
Theorem X1_main_returns_iff (h : Host) :
  (outcome main h = Returned tt <->
   exists gpu adapter context,
     navigator_gpu h = Some gpu /\ gpu_adapter gpu = Some adapter /\
     canvas_context (document_canvas h "canvas") "webgpu" = Some context) /\
  (outcome main h = Returned tt <-> reaches_submission (final main h) = true).
Proof.
  run_on h; split; split; try discriminate; try reflexivity.
  - intros _. exists gpu, adapter, context. repeat split; assumption.
  - intros (g & a & c & _ & _ & Hc). discriminate Hc.
  - intros (g & a & c & Hg & Ha & _). injection Hg as <-.
    rewrite Hadapter in Ha. discriminate Ha.
  - intros (g & a & c & Hg & _). discriminate Hg.
Qed.

(** X2.  In either script nothing reaches the device's queue, and no
    command buffer exists, unless the run returns: a failed run submits
    no partial work. *)
Theorem X2_no_submission_on_failure (script : Host -> M unit) (h : Host) :
  In script scripts ->
  outcome script h <> Returned tt ->
  queue (final script h) = [] /\
  commandBuffers (final script h) = [] /\
  passes (final script h) = [] /\
  existsb is_submit (trace (final script h)) = false /\
  existsb is_beginRenderPass (trace (final script h)) = false.
Proof.
  intros Hs Hfail. pick_script Hs; run_on h;
    try (exfalso; apply Hfail; reflexivity);
    repeat split; reflexivity.
Qed.

Lemma X2_no_submission_on_failure_witness :
  queue (final main null_context_host) = [] /\
  commandBuffers (final main null_context_host) = [] /\
  passes (final main null_context_host) = [] /\
  existsb is_submit (trace (final main null_context_host)) = false /\
  existsb is_beginRenderPass (trace (final main null_context_host)) = false.
Proof.
  apply (X2_no_submission_on_failure main null_context_host).
  - left. reflexivity.
  - vm_compute. discriminate.
Defined.

(** X3.  When either script ends by its own [throw], it has touched
    nothing: no canvas was configured, no GPU object was created, nothing
    was written to the console; only the log has grown, and it holds no
    device request. *)
Theorem X3_throw_leaves_no_object (script : Host -> M unit) (h : Host)
  (message : string) :
  In script scripts ->
  outcome script h = Threw message ->
  final script h = set_trace (trace (final script h)) initial_world /\
  existsb is_requestDevice (trace (final script h)) = false /\
  (last (trace (final script h)) = Some (Test "navigator.gpu" true) \/
   last (trace (final script h)) = Some (Test "adapter" true)).
Proof.
  intros Hs Hthrew. pick_script Hs; run_on h; try discriminate Hthrew;
    repeat split; try reflexivity;
    first [ left; reflexivity | right; reflexivity ].
Qed.

Lemma X3_throw_leaves_no_object_witness :
  final part_000 no_adapter_host =
    set_trace (trace (final part_000 no_adapter_host)) initial_world /\
  existsb is_requestDevice (trace (final part_000 no_adapter_host)) = false /\
  (last (trace (final part_000 no_adapter_host)) = Some (Test "navigator.gpu" true) \/
   last (trace (final part_000 no_adapter_host)) = Some (Test "adapter" true)).
Proof.
  apply (X3_throw_leaves_no_object part_000 no_adapter_host "Failed to get adapter!").
  - right. left. reflexivity.
  - reflexivity.
Defined.

(** X4.  When [main.ts] ends by an exception of the runtime, it has already
    created and filled the vertex buffer and created the shader module, the
    pipeline and a command encoder, all left unused: nothing is recorded
    in the encoder and no pass was begun.  The clear-only variant has then
    created the command encoder only. *)
Theorem X4_objects_left_by_null_context (h : Host) (e : HostException) :
  outcome main h = Raised e ->
  buffers (final main h) = [vertexBufferState h] /\
  length (shaderModules (final main h)) = 1%nat /\
  length (pipelines (final main h)) = 1%nat /\
  encoders (final main h) = [[]] /\
  passes (final main h) = [] /\
  configured (final main h) = [] /\
  outcome part_000 h = Raised e /\
  buffers (final part_000 h) = [] /\
  shaderModules (final part_000 h) = [] /\
  pipelines (final part_000 h) = [] /\
  encoders (final part_000 h) = [[]].
Proof.
  intros Hraised. run_on h; try discriminate Hraised.
  injection Hraised as <-. repeat split; reflexivity.
Qed.

Lemma X4_objects_left_by_null_context_witness :
  buffers (final main null_context_host) = [vertexBufferState null_context_host] /\
  length (shaderModules (final main null_context_host)) = 1%nat /\
  length (pipelines (final main null_context_host)) = 1%nat /\
  encoders (final main null_context_host) = [[]] /\
  passes (final main null_context_host) = [] /\
  configured (final main null_context_host) = [] /\
  outcome part_000 null_context_host = Raised (TypeError "context") /\
  buffers (final part_000 null_context_host) = [] /\
  shaderModules (final part_000 null_context_host) = [] /\
  pipelines (final part_000 null_context_host) = [] /\
  encoders (final part_000 null_context_host) = [[]].
Proof.
  apply (X4_objects_left_by_null_context null_context_host (TypeError "context")).
  reflexivity.
Defined.

(** X5.  [main.ts] writes to the console once, the element count of
    [verticies], and only on a run that returns; a failed run logs
    nothing, and the clear-only variant never logs. *)
Theorem X5_console (h : Host) :
  (outcome main h = Returned tt ->
   console (final main h) = [array_length verticies]) /\
  (outcome main h <> Returned tt -> console (final main h) = []) /\
  console (final part_000 h) = [].
Proof.
  run_on h; repeat split; try reflexivity; try discriminate;
    intros Hfail; exfalso; apply Hfail; reflexivity.
Qed.

Lemma defined_before_use_lookup (tr : list Event) :
  forall known, defined_before_use known tr ->
  forall i e x, tr !! i = Some e -> In x (arguments e) ->
    In x known \/
    exists j e', (j < i)%nat /\ tr !! j = Some e' /\ In x (results e').
Proof.
  induction tr as [|e0 tr IH]; intros known Hok i e x Hi Hx.
  - discriminate Hi.
  - destruct Hok as [Hhead Htail]. destruct i as [|i]; simpl in Hi.
    + injection Hi as ->. left. apply Hhead. exact Hx.
    + destruct (IH _ Htail i e x Hi Hx) as [Hknown | (j & e' & Hlt & Hj & Hres)].
      * apply in_app_or in Hknown as [Hnew | Hold].
        -- right. exists 0%nat, e0. repeat split; [lia | exact Hnew].
        -- left. exact Hold.
      * right. exists (S j), e'. repeat split; [lia | exact Hj | exact Hres].
Qed.

Lemma scripts_defined_before_use (script : Host -> M unit) (h : Host) :
  In script scripts -> defined_before_use [] (trace (final script h)).
Proof.
  intros Hs. pick_script Hs; run_on h;
    repeat split;
    intros x Hx; repeat (destruct Hx as [<- | Hx]); try contradiction; find_in.
Qed.

(** X6.  In every run of either script, each handle passed to a host
    method (as receiver, as argument or inside a descriptor) was returned
    to the script by an earlier call of that run: no object is used before
    it is created. *)
Theorem X6_handles_created_before_use (script : Host -> M unit) (h : Host)
  (i : nat) (e : Event) (x : Handle) :
  In script scripts ->
  trace (final script h) !! i = Some e ->
  In x (arguments e) ->
  exists j e', (j < i)%nat /\ trace (final script h) !! j = Some e' /\
               In x (results e').
Proof.
  intros Hs Hi Hx.
  destruct (defined_before_use_lookup _ [] (scripts_defined_before_use script h Hs)
              i e x Hi Hx) as [[] | Hfound].
  exact Hfound.
Qed.

Lemma X6_handles_created_before_use_witness :
  exists j e', (j < 21)%nat /\ trace (final main full_host) !! j = Some e' /\
               In (H_commandBuffer (CommandBuffer 0)) (results e').
Proof.
  apply (X6_handles_created_before_use main full_host 21
           (E_submit (Device 0) [CommandBuffer 0])).
  - left. reflexivity.
  - reflexivity.
  - simpl. right. left. reflexivity.
Defined.

(** X7.  Every call of either script that takes a device takes the one
    device that the adapter's [requestDevice] returned: the canvas, the
    buffer, the shader module, the pipeline, the encoder and the queue all
    belong to the same device. *)
Theorem X7_single_device (script : Host -> M unit) (h : Host) (e : Event)
  (device : GPUDevice) :
  In script scripts ->
  In e (trace (final script h)) ->
  In (H_device device) (arguments e) ->
  exists gpu adapter,
    navigator_gpu h = Some gpu /\ gpu_adapter gpu = Some adapter /\
    device = adapter_device adapter.
Proof.
  intros Hs He Hd.
  pick_script Hs; run_on h;
    repeat (destruct He as [<- | He]); try contradiction;
    cbv [arguments map RenderPassDescriptor.colorAttachments
         CanvasConfiguration.device] in Hd;
    repeat (destruct Hd as [Hd | Hd]; try discriminate Hd); try contradiction;
    injection Hd as <-; exists gpu, adapter; repeat split; assumption.
Qed.

Lemma X7_single_device_witness :
  exists gpu adapter,
    navigator_gpu full_host = Some gpu /\ gpu_adapter gpu = Some adapter /\
    Device 0 = adapter_device adapter.
Proof.
  apply (X7_single_device main full_host (E_submit (Device 0) [CommandBuffer 0])).
  - left. reflexivity.
  - vm_compute. find_in.
  - left. reflexivity.
Defined.

(** X8.  Whenever either script begins a render pass, its one colour
    attachment is the default view of the current texture of the context
    that [getContext] returned and that the script configured; the texture
    is only ever requested after the configuration. *)
Theorem X8_pass_draws_to_configured_canvas (script : Host -> M unit) (h : Host)
  (encoder : GPUCommandEncoder) (descriptor : RenderPassDescriptor.t)
  (pass : GPURenderPassEncoder) :
  In script scripts ->
  In (E_beginRenderPass encoder descriptor pass) (trace (final script h)) ->
  exists context configuration,
    canvas_context (document_canvas h "canvas") "webgpu" = Some context /\
    configured (final script h) = [(context, configuration)] /\
    RenderPassDescriptor.colorAttachments descriptor =
      [clearAttachment (DefaultView (CurrentTexture context))] /\
    In (E_getCurrentTexture context (CurrentTexture context))
       (trace (final script h)) /\
    precedes is_configure is_getCurrentTexture (trace (final script h)).
Proof.
  intros Hs Hin.
  assert (Hbefore : precedes is_configure is_getCurrentTexture
                      (trace (final script h))).
  { apply precedesb_sound. clear Hin. pick_script Hs; run_on h; reflexivity. }
  pick_script Hs; run_on h;
    repeat (destruct Hin as [Hin | Hin]; try discriminate Hin);
    try contradiction;
    injection Hin as <- <- <-;
    exists context; eexists;
    (repeat apply conj; try reflexivity; [ find_in | exact Hbefore ]).
Qed.

Lemma X8_pass_draws_to_configured_canvas_witness :
  exists context configuration,
    canvas_context (document_canvas full_host "canvas") "webgpu" = Some context /\
    configured (final part_000 full_host) = [(context, configuration)] /\
    [clearAttachment (DefaultView (CurrentTexture (CanvasContext 0)))] =
      [clearAttachment (DefaultView (CurrentTexture context))] /\
    In (E_getCurrentTexture context (CurrentTexture context))
       (trace (final part_000 full_host)) /\
    precedes is_configure is_getCurrentTexture (trace (final part_000 full_host)).
Proof.
  apply (X8_pass_draws_to_configured_canvas part_000 full_host (CommandEncoder 0)
           {| RenderPassDescriptor.colorAttachments :=
                [clearAttachment (DefaultView (CurrentTexture (CanvasContext 0)))] |}
           (RenderPassEncoder 0)).
  - right. left. reflexivity.
  - vm_compute. find_in.
Defined.

(** X9.  On every host, also one where the run fails, the calls of either
    script follow the start-up order: the step numbers along the log never
    decrease. *)
Theorem X9_steps_never_decrease (script : Host -> M unit) (h : Host) :
  In script scripts ->
  StronglySorted le (omap step (trace (final script h))).
Proof.
  intros Hs. pick_script Hs; run_on h; repeat constructor.
Qed.

Lemma X9_steps_never_decrease_witness :
  StronglySorted le (omap step (trace (final main null_context_host))).
Proof.
  apply (X9_steps_never_decrease main null_context_host). left. reflexivity.
Defined.

(** X10.  In every run of either script the render pass is begun on an
    encoder created before, every pass command falls between the begin and
    the end of the pass, the pass is ended before the encoder is finished,
    and the encoder is finished before the submission. *)
Theorem X10_pass_lifecycle (script : Host -> M unit) (h : Host) :
  In script scripts ->
  precedes is_createCommandEncoder is_beginRenderPass (trace (final script h)) /\
  precedes is_beginRenderPass is_pass_command (trace (final script h)) /\
  followed is_pass_command is_end (trace (final script h)) /\
  precedes is_beginRenderPass is_end (trace (final script h)) /\
  precedes is_end is_finish (trace (final script h)) /\
  precedes is_finish is_submit (trace (final script h)) /\
  followed is_beginRenderPass is_end (trace (final script h)).
Proof.
  intros Hs. unfold followed.
  repeat apply conj; apply precedesb_sound;
    pick_script Hs; run_on h; reflexivity.
Qed.

Lemma X10_pass_lifecycle_witness :
  precedes is_createCommandEncoder is_beginRenderPass (trace (final main full_host)) /\
  precedes is_beginRenderPass is_pass_command (trace (final main full_host)) /\
  followed is_pass_command is_end (trace (final main full_host)) /\
  precedes is_beginRenderPass is_end (trace (final main full_host)) /\
  precedes is_end is_finish (trace (final main full_host)) /\
  precedes is_finish is_submit (trace (final main full_host)) /\
  followed is_beginRenderPass is_end (trace (final main full_host)).
Proof.
  apply (X10_pass_lifecycle main full_host). left. reflexivity.
Defined.


(** X12.  A run of the clear-only variant that reaches the queue submission
    has exactly the events [variant_events]: capability query, adapter,
    device, configuration, then the recording and the submission, with no
    buffer, shader or pipeline step in between; the device is requested
    before the configuration and the canvas configured before its texture
    is taken. *)
Theorem X12_variant_call_order (h : Host) :
  reaches_submission (final part_000 h) = true ->
  exists gpu adapter context,
    navigator_gpu h = Some gpu /\
    gpu_adapter gpu = Some adapter /\
    canvas_context (document_canvas h "canvas") "webgpu" = Some context /\
    trace (final part_000 h) = variant_events h gpu adapter context /\
    omap step (trace (final part_000 h)) =
      [1; 2; 3; 4; 4; 4; 8; 8; 8; 8; 8; 8; 9]%nat /\
    precedes is_requestDevice is_configure (trace (final part_000 h)) /\
    precedes is_configure is_getCurrentTexture (trace (final part_000 h)).
Proof.
  intros Hsubmit.
  destruct (navigator_gpu h) as [gpu|] eqn:Hgpu.
  2: { unfold final in Hsubmit.
       rewrite (run_without_gpu h part_000) in Hsubmit;
         [discriminate Hsubmit | right; left; reflexivity | exact Hgpu]. }
  destruct (gpu_adapter gpu) as [adapter|] eqn:Hadapter.
  2: { unfold final in Hsubmit.
       rewrite (run_without_adapter h gpu part_000) in Hsubmit;
         [discriminate Hsubmit | right; left; reflexivity | exact Hgpu
         | exact Hadapter]. }
  destruct (canvas_context (document_canvas h "canvas") "webgpu")
    as [context|] eqn:Hcontext.
  2: { unfold final in Hsubmit.
       rewrite (run_variant_without_context h gpu adapter Hgpu Hadapter Hcontext)
         in Hsubmit. discriminate Hsubmit. }
  exists gpu, adapter, context. unfold final.
  rewrite (run_variant_to_the_end h gpu adapter context Hgpu Hadapter Hcontext).
  repeat apply conj; try assumption; try reflexivity;
    apply precedesb_sound; reflexivity.
Qed.

Lemma X12_variant_call_order_witness :
  exists gpu adapter context,
    navigator_gpu full_host = Some gpu /\
    gpu_adapter gpu = Some adapter /\
    canvas_context (document_canvas full_host "canvas") "webgpu" = Some context /\
    trace (final part_000 full_host) = variant_events full_host gpu adapter context /\
    omap step (trace (final part_000 full_host)) =
      [1; 2; 3; 4; 4; 4; 8; 8; 8; 8; 8; 8; 9]%nat /\
    precedes is_requestDevice is_configure (trace (final part_000 full_host)) /\
    precedes is_configure is_getCurrentTexture (trace (final part_000 full_host)).
Proof. apply (X12_variant_call_order full_host). vm_compute. reflexivity. Defined.

(** X13.  The variant only clears: on no host does it create a buffer, a
    shader module or a pipeline or record a pass command, and when it
    returns it has recorded one command buffer with one render pass that
    holds no command at all, with the clear/store attachment, and has made
    one submission of it. *)
Theorem X13_variant_only_clears (h : Host) :
  buffers (final part_000 h) = [] /\
  shaderModules (final part_000 h) = [] /\
  pipelines (final part_000 h) = [] /\
  count is_extra (trace (final part_000 h)) = 0%nat /\
  (outcome part_000 h = Returned tt ->
   exists pass attachment,
     commandBuffers (final part_000 h) = [[pass]] /\
     rp_commands pass = [] /\
     RenderPassDescriptor.colorAttachments (rp_descriptor pass) = [attachment] /\
     ColorAttachment.loadOp attachment = "clear" /\
     ColorAttachment.storeOp attachment = "store" /\
     queue (final part_000 h) = [[CommandBuffer 0]] /\
     count is_beginRenderPass (trace (final part_000 h)) = 1%nat /\
     count is_finish (trace (final part_000 h)) = 1%nat /\
     count is_submit (trace (final part_000 h)) = 1%nat).
Proof.
  run_on h; repeat apply conj; try reflexivity; try discriminate.
  intros _. eexists. eexists. repeat apply conj; reflexivity.
Qed.

(** X14.  When [getContext("webgpu")] returns null, the variant too skips
    [configure], creates its command encoder and then dereferences the
    null context: the run ends with the runtime's [TypeError], before any
    render pass is begun. *)
Theorem X14_variant_null_context (h : Host) (gpu : GPU) (adapter : GPUAdapter) :
  navigator_gpu h = Some gpu ->
  gpu_adapter gpu = Some adapter ->
  canvas_context (document_canvas h "canvas") "webgpu" = None ->
  outcome part_000 h = Raised (TypeError "context") /\
  In (Test "context" true) (trace (final part_000 h)) /\
  existsb is_configure (trace (final part_000 h)) = false /\
  last (trace (final part_000 h)) =
    Some (E_createCommandEncoder (adapter_device adapter) (CommandEncoder 0)) /\
  omap step (trace (final part_000 h)) = [1; 2; 3; 4; 4; 8]%nat /\
  existsb is_beginRenderPass (trace (final part_000 h)) = false.
Proof.
  intros Hg Ha Hc. unfold outcome, final.
  rewrite (run_variant_without_context h gpu adapter Hg Ha Hc).
  repeat apply conj; try reflexivity. simpl. find_in.
Qed.

Lemma X14_variant_null_context_witness :
  outcome part_000 null_context_host = Raised (TypeError "context") /\
  In (Test "context" true) (trace (final part_000 null_context_host)) /\
  existsb is_configure (trace (final part_000 null_context_host)) = false /\
  last (trace (final part_000 null_context_host)) =
    Some (E_createCommandEncoder (Device 0) (CommandEncoder 0)) /\
  omap step (trace (final part_000 null_context_host)) = [1; 2; 3; 4; 4; 8]%nat /\
  existsb is_beginRenderPass (trace (final part_000 null_context_host)) = false.
Proof.
  apply (X14_variant_null_context null_context_host full_gpu
           {| adapter_device := Device 0 |}); reflexivity.
Defined.

(** X15.  Whenever the variant configures the canvas, it does so once, with
    the device that the adapter's [requestDevice] returned and the format
    that [getPreferredCanvasFormat] returned, on the context that
    [getContext] returned. *)
Theorem X15_variant_configuration (h : Host) (context : GPUCanvasContext)
  (configuration : CanvasConfiguration.t) :
  In (E_configure context configuration) (trace (final part_000 h)) ->
  exists gpu adapter,
    navigator_gpu h = Some gpu /\
    gpu_adapter gpu = Some adapter /\
    canvas_context (document_canvas h "canvas") "webgpu" = Some context /\
    CanvasConfiguration.device configuration = adapter_device adapter /\
    CanvasConfiguration.format configuration = gpu_preferredCanvasFormat gpu /\
    In (E_requestDevice adapter (CanvasConfiguration.device configuration))
       (trace (final part_000 h)) /\
    In (E_getPreferredCanvasFormat gpu (CanvasConfiguration.format configuration))
       (trace (final part_000 h)) /\
    configured (final part_000 h) = [(context, configuration)] /\
    count is_configure (trace (final part_000 h)) = 1%nat.
Proof.
  intros Hin. run_on h;
    repeat (destruct Hin as [Hin | Hin]; try discriminate Hin); try contradiction.
  injection Hin as <- <-.
  exists gpu, adapter.
  repeat apply conj; try reflexivity; try assumption; find_in.
Qed.

Lemma X15_variant_configuration_witness :
  exists gpu adapter,
    navigator_gpu full_host = Some gpu /\
    gpu_adapter gpu = Some adapter /\
    canvas_context (document_canvas full_host "canvas") "webgpu" =
      Some (CanvasContext 0) /\
    Device 0 = adapter_device adapter /\
    "bgra8unorm" = gpu_preferredCanvasFormat gpu /\
    In (E_requestDevice adapter (Device 0)) (trace (final part_000 full_host)) /\
    In (E_getPreferredCanvasFormat gpu "bgra8unorm")
       (trace (final part_000 full_host)) /\
    configured (final part_000 full_host) =
      [(CanvasContext 0,
        {| CanvasConfiguration.device := Device 0;
           CanvasConfiguration.format := "bgra8unorm" |})] /\
    count is_configure (trace (final part_000 full_host)) = 1%nat.
Proof.
  apply (X15_variant_configuration full_host (CanvasContext 0)
           {| CanvasConfiguration.device := Device 0;
              CanvasConfiguration.format := "bgra8unorm" |}).
  vm_compute. find_in.
Defined.
